(** * Role migration with rollback (role_changes.py)

    A shallow embedding of the directory-role migration script: the role
    definition lookup, the planner that lists the users holding the source
    role, the grant-then-revoke loop, the state file and the command
    entry point.  The Graph client is an external collaborator; its
    answers are data of the model, and every call to it is recorded in
    the trace of the run. *)

From Stdlib Require Import String Ascii List Bool Arith ZArith Lia DecimalString.
From Stdlib Require Import Sorted Permutation.
Import ListNotations.
Local Open Scope string_scope.

(** ** Python values used by the script *)

(** Exceptions.  [except Exception] catches every class below except the
    last one, which stands for the [BaseException]-only classes
    (KeyboardInterrupt, asyncio.CancelledError). *)
Inductive PyExc : Type :=
| ValueError (msg : string)
| ODataError (msg : string)
| OtherException (msg : string)
| CancelledError.

Definition is_Exception (e : PyExc) : bool :=
  match e with
  | CancelledError => false
  | _ => true
  end.

Inductive Result (A : Type) : Type :=
| Ok (a : A)
| Err (e : PyExc).
Arguments Ok {A} a.
Arguments Err {A} e.

(** The subset of JSON values the state file is made of. *)
#[local] Set Warnings "-register-all".
Inductive Json : Type :=
| JNull
| JStr (s : string)
| JList (items : list Json)
| JObj (fields : list (string * Json)).

Definition nl : string := String (ascii_of_nat 10) EmptyString.

(** [str(x)] for an optional string inside an f-string. *)
Definition fmt (o : option string) : string :=
  match o with
  | Some s => s
  | None => "None"
  end.

(** [json] encoding of an optional string attribute. *)
Definition to_json (o : option string) : Json :=
  match o with
  | Some s => JStr s
  | None => JNull
  end.

(** Truthiness of an optional string: [None] and [""] are falsy. *)
Definition truthy (o : option string) : bool :=
  match o with
  | Some EmptyString => false
  | Some _ => true
  | None => false
  end.

(** [x or default] on an optional string. *)
Definition or_else (o : option string) (default : string) : string :=
  match o with
  | Some EmptyString => default
  | Some s => s
  | None => default
  end.

(** [resp.value or []]. *)
Definition value_or_empty {A : Type} (value : option (list A)) : list A :=
  match value with
  | Some l => l
  | None => []
  end.

Definition str_of_nat (n : nat) : string :=
  NilEmpty.string_of_uint (Nat.to_uint n).

(** [d.display_name == name]: equality of an optional string with a string. *)
Definition opt_eqb (o : option string) (s : string) : bool :=
  match o with
  | Some x => String.eqb x s
  | None => false
  end.

(** ** Graph models *)

Module RoleDefinition.
Record t : Type := mk { id : string; display_name : option string }.
End RoleDefinition.

Module RoleAssignment.
Record t : Type := mk { principal_id : string; role_definition_id : string }.
End RoleAssignment.

Module User.
Record t : Type :=
  mk { id : string;
       display_name : option string;
       user_principal_name : option string }.
End User.

(** The tenant as seen through the Graph client: what each read request
    answers.  A request either raises or returns a response whose [value]
    may be absent; a user lookup may return no object. *)
Record Tenant : Type := mkTenant {
  role_definitions_get : Result (option (list RoleDefinition.t));
  role_assignments_get : Result (option (list RoleAssignment.t));
  users_by_user_id_get : string -> Result (option User.t)
}.

(** The two mutation helpers are placeholders in the script (a docstring
    and a comment, no request).  The request each one stands for is a
    parameter of the model: it may raise, and it may change the tenant.
    [stub] is the script as written. *)
Record Mutations : Type := mkMutations {
  create_assignment : string -> string -> string -> Tenant -> Result Tenant;
  delete_assignment : string -> string -> string -> Tenant -> Result Tenant
}.

Definition stub : Mutations :=
  {| create_assignment := fun _ _ _ tn => Ok tn;
     delete_assignment := fun _ _ _ tn => Ok tn |}.

(** Module constants [FROM_ROLE_NAME] and [TO_ROLE_NAME]. *)
Record Config : Type := mkConfig {
  FROM_ROLE_NAME : string;
  TO_ROLE_NAME : string
}.

Definition script_config : Config :=
  {| FROM_ROLE_NAME := "Too Many Perms";
     TO_ROLE_NAME := "Just Right Perms" |}.

Definition swap_roles (cfg : Config) : Config :=
  {| FROM_ROLE_NAME := TO_ROLE_NAME cfg;
     TO_ROLE_NAME := FROM_ROLE_NAME cfg |}.

Definition STATE_FILE : string := "role_migration_state.json".

Inductive Direction : Type := forward | rollback.

Definition direction_str (d : Direction) : string :=
  match d with
  | forward => "forward"
  | rollback => "rollback"
  end.

(** ** Runs: state, trace and exceptions *)

(** What a run can observe and change: the tenant, the content of the
    state file (absent when the file does not exist) and the clock
    ([datetime.now().isoformat()]). *)
Record World : Type := mkWorld {
  tenant : Tenant;
  state_file : option Json;
  now_isoformat : string
}.

Definition set_tenant (tn : Tenant) (w : World) : World :=
  {| tenant := tn; state_file := state_file w; now_isoformat := now_isoformat w |}.

Definition set_state_file (j : Json) (w : World) : World :=
  {| tenant := tenant w; state_file := Some j; now_isoformat := now_isoformat w |}.

(** Observable actions of a run, in order. *)
Inductive Event : Type :=
| Stdout (text : string)
| ListRoleDefinitions
| ListRoleAssignments
| GetUser (uid : string)
| AddRole (role_def_id user_id upn : string) (ok : bool)
| RemoveRole (role_def_id user_id upn : string) (ok : bool)
| WriteState (content : Json).

Definition is_mutation (e : Event) : bool :=
  match e with
  | AddRole _ _ _ _ | RemoveRole _ _ _ _ => true
  | _ => false
  end.


Definition is_write (e : Event) : bool :=
  match e with
  | WriteState _ => true
  | _ => false
  end.

Definition is_stdout (e : Event) : bool :=
  match e with
  | Stdout _ => true
  | _ => false
  end.

Definition M (A : Type) : Type := World -> Result A * World * list Event.

Definition ret {A : Type} (a : A) : M A := fun w => (Ok a, w, []).

Definition raise {A : Type} (e : PyExc) : M A := fun w => (Err e, w, []).

Definition bind {A B : Type} (m : M A) (f : A -> M B) : M B :=
  fun w =>
    match m w with
    | (Ok a, w1, t1) =>
        match f a w1 with
        | (r, w2, t2) => (r, w2, (t1 ++ t2)%list)
        end
    | (Err e, w1, t1) => (Err e, w1, t1)
    end.

(** [try: body  except Exception: handler]. *)
Definition try_except {A : Type} (body : M A) (handler : M A) : M A :=
  fun w =>
    match body w with
    | (Ok a, w1, t1) => (Ok a, w1, t1)
    | (Err e, w1, t1) =>
        if is_Exception e then
          match handler w1 with
          | (r, w2, t2) => (r, w2, (t1 ++ t2)%list)
          end
        else (Err e, w1, t1)
    end.

Definition emit (e : Event) : M unit := fun w => (Ok tt, w, [e]).

Declare Scope run_scope.
Delimit Scope run_scope with run.
Notation "x <- m ;; k" := (bind m (fun x => k))
  (at level 61, m at next level, right associativity) : run_scope.
Notation "m ;; k" := (bind m (fun _ => k))
  (at level 61, right associativity) : run_scope.
Local Open Scope run_scope.

(** [print(s)] and [print(s, end="")]. *)
Definition print (s : string) : M unit := emit (Stdout (s ++ nl)).
Definition print_end (s : string) : M unit := emit (Stdout s).

Definition result_of {A : Type} (x : Result A * World * list Event) : Result A :=
  fst (fst x).
Definition world_of {A : Type} (x : Result A * World * list Event) : World :=
  snd (fst x).
Definition trace_of {A : Type} (x : Result A * World * list Event) : list Event :=
  snd x.

(** ** The script *)

Definition get_all_role_definitions : M (list RoleDefinition.t) :=
  fun w =>
    match role_definitions_get (tenant w) with
    | Ok value => (Ok (value_or_empty value), w, [ListRoleDefinitions])
    | Err e => (Err e, w, [ListRoleDefinitions])
    end.

Definition get_all_role_assignments : M (list RoleAssignment.t) :=
  fun w =>
    match role_assignments_get (tenant w) with
    | Ok value => (Ok (value_or_empty value), w, [ListRoleAssignments])
    | Err e => (Err e, w, [ListRoleAssignments])
    end.

(** The [for d in definitions] loop of [get_role_definition_by_name]:
    the first definition whose display name equals [name]. *)
Fixpoint first_named (name : string) (definitions : list RoleDefinition.t)
  : option RoleDefinition.t :=
  match definitions with
  | [] => None
  | d :: rest =>
      if opt_eqb (RoleDefinition.display_name d) name then Some d
      else first_named name rest
  end.

Definition not_found_message (name : string) : string :=
  "Directory role definition '" ++ name ++ "' not found.".

Definition get_role_definition_by_name (name : string) : M RoleDefinition.t :=
  definitions <- get_all_role_definitions ;;
  match first_named name definitions with
  | Some d => ret d
  | None => raise (ValueError (not_found_message name))
  end.

Definition get_role_definition_id_by_name (name : string) : M string :=
  role_def <- get_role_definition_by_name name ;;
  print ("Found role definition: '" ++ fmt (RoleDefinition.display_name role_def)
         ++ "' → Definition ID: " ++ RoleDefinition.id role_def) ;;
  ret (RoleDefinition.id role_def).

Definition get_role_assignments_for_definition (role_def_id : string)
  : M (list RoleAssignment.t) :=
  assignments <- get_all_role_assignments ;;
  ret (filter (fun a => String.eqb (RoleAssignment.role_definition_id a) role_def_id)
              assignments).

(** [client.users.by_user_id(uid).get()]. *)
Definition users_by_user_id (uid : string) : M (option User.t) :=
  fun w => (users_by_user_id_get (tenant w) uid, w, [GetUser uid]).

(** [getattr(u, "user_principal_name", None)]. *)
Definition getattr_user_principal_name (u : option User.t) : option string :=
  match u with
  | Some x => User.user_principal_name x
  | None => None
  end.

(** One pass of the [for uid in user_ids] loop; the result is the list
    [users] after the pass. *)
Definition users_step (uid : string) (users : list User.t) : M (list User.t) :=
  try_except
    (u <- users_by_user_id uid ;;
     match u with
     | Some x =>
         if truthy (getattr_user_principal_name u) then ret (users ++ [x])%list
         else ret users
     | None => ret users
     end)
    (ret users).

Fixpoint users_loop (user_ids : list string) (users : list User.t)
  : M (list User.t) :=
  match user_ids with
  | [] => ret users
  | uid :: rest =>
      users' <- users_step uid users ;;
      users_loop rest users'
  end.

Definition get_users_for_role_definition (role_def_id : string) : M (list User.t) :=
  assignments <- get_role_assignments_for_definition role_def_id ;;
  users_loop (map RoleAssignment.principal_id assignments) [].

(** [add_user_to_role_definition] and [remove_user_from_role_definition]:
    the call is recorded with its outcome; an exception of the request
    propagates to the caller. *)
Definition add_user_to_role_definition (api : Mutations)
    (role_def_id user_id upn : string) : M unit :=
  fun w =>
    match create_assignment api role_def_id user_id upn (tenant w) with
    | Ok tn => (Ok tt, set_tenant tn w, [AddRole role_def_id user_id upn true])
    | Err e => (Err e, w, [AddRole role_def_id user_id upn false])
    end.

Definition remove_user_from_role_definition (api : Mutations)
    (role_def_id user_id upn : string) : M unit :=
  fun w =>
    match delete_assignment api role_def_id user_id upn (tenant w) with
    | Ok tn => (Ok tt, set_tenant tn w, [RemoveRole role_def_id user_id upn true])
    | Err e => (Err e, w, [RemoveRole role_def_id user_id upn false])
    end.

(** The dict built by [save_state]; the file holds its [json.dumps] text,
    kept here as the value it encodes. *)
Definition state_record (cfg : Config) (timestamp : string)
    (direction : Direction) (affected_users : list Json) : Json :=
  JObj [ ("timestamp", JStr timestamp);
         ("direction", JStr (direction_str direction));
         ("from_role", JStr (match direction with
                             | forward => FROM_ROLE_NAME cfg
                             | rollback => TO_ROLE_NAME cfg
                             end));
         ("to_role", JStr (match direction with
                           | forward => TO_ROLE_NAME cfg
                           | rollback => FROM_ROLE_NAME cfg
                           end));
         ("affected_users", JList affected_users) ].

Definition save_state (cfg : Config) (direction : Direction)
    (affected_users : list Json) : M unit :=
  fun w =>
    let state := state_record cfg (now_isoformat w ++ "Z") direction affected_users in
    (Ok tt, set_state_file state w,
     [WriteState state; Stdout (nl ++ "State saved → " ++ STATE_FILE ++ nl)]).

Definition source_role (cfg : Config) (direction : Direction) : string :=
  match direction with
  | forward => FROM_ROLE_NAME cfg
  | rollback => TO_ROLE_NAME cfg
  end.

Definition target_role (cfg : Config) (direction : Direction) : string :=
  match direction with
  | forward => TO_ROLE_NAME cfg
  | rollback => FROM_ROLE_NAME cfg
  end.

(** The entry appended to [affected] for a migrated user. *)
Definition affected_entry (user : User.t) : Json :=
  JObj [ ("userId", JStr (User.id user));
         ("displayName", to_json (User.display_name user));
         ("userPrincipalName",
          JStr (or_else (User.user_principal_name user) "unknown")) ].

(** The [for u in members] loop that prints the plan. *)
Fixpoint print_members (members : list User.t) : M unit :=
  match members with
  | [] => ret tt
  | u :: rest =>
      print ("  • " ++ fmt (User.display_name u) ++ " ("
             ++ fmt (User.user_principal_name u) ++ ")") ;;
      print_members rest
  end.

(** The [for user in members] loop of the live run: add the target role,
    then remove the source role, then record the user.  The result is
    the list [affected] after the loop. *)
Fixpoint migrate_loop (api : Mutations)
    (source_role_name target_role_name source_role_def_id target_role_def_id : string)
    (members : list User.t) (affected : list Json) : M (list Json) :=
  match members with
  | [] => ret affected
  | user :: rest =>
      let upn := or_else (User.user_principal_name user) "unknown" in
      print (nl ++ "Processing: " ++ fmt (User.display_name user) ++ " (" ++ upn ++ ")") ;;
      print_end ("  Adding '" ++ target_role_name ++ "'...") ;;
      add_user_to_role_definition api target_role_def_id (User.id user) upn ;;
      print_end ("  Removing '" ++ source_role_name ++ "'...") ;;
      remove_user_from_role_definition api source_role_def_id (User.id user) upn ;;
      migrate_loop api source_role_name target_role_name
                   source_role_def_id target_role_def_id
                   rest (affected ++ [affected_entry user])%list
  end.

Definition dry_run_marker : string := nl ++ "Dry-run complete. No changes made.".

Definition nothing_to_do (source_role_name : string) : string :=
  "No users found with '" ++ source_role_name ++ "'. Nothing to do.".

Definition migrate (cfg : Config) (api : Mutations)
    (direction : Direction) (dry_run : bool) : M unit :=
  let source_role_name := source_role cfg direction in
  let target_role_name := target_role cfg direction in
  print (nl ++ (if dry_run then "DRY RUN — NO CHANGES WILL BE MADE" else "LIVE RUN")) ;;
  print ("Direction: " ++ source_role_name ++ " → " ++ target_role_name ++ nl) ;;
  source_role_def_id <- get_role_definition_id_by_name source_role_name ;;
  target_role_def_id <- get_role_definition_id_by_name target_role_name ;;
  members <- get_users_for_role_definition source_role_def_id ;;
  match members with
  | [] => print (nothing_to_do source_role_name)
  | _ :: _ =>
      print ("Found " ++ str_of_nat (length members) ++ " user(s) with '"
             ++ source_role_name ++ "':") ;;
      print_members members ;;
      if dry_run then print dry_run_marker
      else
        print (nl ++ "Starting migration...") ;;
        affected <- migrate_loop api source_role_name target_role_name
                                 source_role_def_id target_role_def_id members [] ;;
        save_state cfg direction affected ;;
        print (nl ++ "Migration complete! " ++ str_of_nat (length affected)
               ++ " user(s) updated.")
  end.

(** [STATE_FILE.exists()]. *)
Definition state_file_exists : M bool :=
  fun w => (Ok (match state_file w with Some _ => true | None => false end), w, []).

Definition no_previous_migration : string :=
  "No previous migration found. Cannot rollback.".

(** [main], after argument parsing: [args_rollback] and [args_dry_run]
    are the two command-line flags. *)
Definition main (cfg : Config) (api : Mutations)
    (args_rollback args_dry_run : bool) : M unit :=
  let direction := if args_rollback then rollback else forward in
  if args_rollback then
    found <- state_file_exists ;;
    if found then
      print "ROLLBACK MODE ACTIVATED" ;;
      migrate cfg api direction args_dry_run
    else print no_previous_migration
  else migrate cfg api direction args_dry_run.

(** The planning prefix of [migrate]: the two role lookups and the
    listing of the users holding the source role, in the order [migrate]
    makes them.  Named so that statements can speak of the plan of a run. *)
Definition resolve_plan (cfg : Config) (direction : Direction)
  : M (string * string * list User.t) :=
  source_role_def_id <- get_role_definition_id_by_name (source_role cfg direction) ;;
  target_role_def_id <- get_role_definition_id_by_name (target_role cfg direction) ;;
  members <- get_users_for_role_definition source_role_def_id ;;
  ret (source_role_def_id, target_role_def_id, members).

(** What [migrate] does once the plan is known. *)
Definition execute_plan (cfg : Config) (api : Mutations)
    (direction : Direction) (dry_run : bool)
    (plan : string * string * list User.t) : M unit :=
  let '(source_role_def_id, target_role_def_id, members) := plan in
  let source_role_name := source_role cfg direction in
  let target_role_name := target_role cfg direction in
  match members with
  | [] => print (nothing_to_do source_role_name)
  | _ :: _ =>
      print ("Found " ++ str_of_nat (length members) ++ " user(s) with '"
             ++ source_role_name ++ "':") ;;
      print_members members ;;
      if dry_run then print dry_run_marker
      else
        print (nl ++ "Starting migration...") ;;
        affected <- migrate_loop api source_role_name target_role_name
                                 source_role_def_id target_role_def_id members [] ;;
        save_state cfg direction affected ;;
        print (nl ++ "Migration complete! " ++ str_of_nat (length affected)
               ++ " user(s) updated.")
  end.

(** The two header lines printed by [migrate]. *)
Definition header (cfg : Config) (direction : Direction) (dry_run : bool)
  : list Event :=
  [ Stdout ((nl ++ (if dry_run then "DRY RUN — NO CHANGES WILL BE MADE" else "LIVE RUN"))
            ++ nl);
    Stdout (("Direction: " ++ source_role cfg direction ++ " → "
             ++ target_role cfg direction ++ nl) ++ nl) ].

(** ** Reading traces *)

Definition mutation_calls (t : list Event) : list Event := filter is_mutation t.

Definition harmless (e : Event) : bool := negb (is_mutation e || is_write e).

(** A computation that leaves the world as it is and neither mutates the
    directory nor writes the state file. *)
Definition read_only {A : Type} (m : M A) : Prop :=
  forall w, world_of (m w) = w /\ forallb harmless (trace_of (m w)) = true.

(** The user ids listed in a state record: what a rollback driven by the
    record would have to read. *)
Definition field (key : string) (j : Json) : option Json :=
  match j with
  | JObj fields =>
      match find (fun kv => String.eqb (fst kv) key) fields with
      | Some kv => Some (snd kv)
      | None => None
      end
  | _ => None
  end.

Definition keys (j : Json) : list string :=
  match j with
  | JObj fields => map fst fields
  | _ => []
  end.

Definition recorded_user_ids (record : Json) : list string :=
  match field "affected_users" record with
  | Some (JList items) =>
      flat_map (fun item => match field "userId" item with
                            | Some (JStr s) => [s]
                            | _ => []
                            end) items
  | _ => []
  end.

(** The users a run adds to a role, in call order. *)
Definition added_user_ids (t : list Event) : list string :=
  flat_map (fun e => match e with
                     | AddRole _ user_id _ _ => [user_id]
                     | _ => []
                     end) t.

(** Role memberships, to read a trace of mutation calls as changes of
    who holds what: a successful add makes the user hold the role, a
    successful remove ends it, anything else changes nothing. *)
Definition Holdings : Type := string -> string -> bool.

Definition set_holding (h : Holdings) (role user : string) (b : bool) : Holdings :=
  fun r u => if (String.eqb r role && String.eqb u user)%bool then b else h r u.

Definition apply_event (h : Holdings) (e : Event) : Holdings :=
  match e with
  | AddRole r u _ true => set_holding h r u true
  | RemoveRole r u _ true => set_holding h r u false
  | _ => h
  end.

Definition replay (t : list Event) (h : Holdings) : Holdings :=
  fold_left apply_event t h.

Definition holds_either (source target : string) (h : Holdings) (u : string) : bool :=
  (h source u || h target u)%bool.

(** The two calls made for a user whose migration goes through. *)
Definition pair_calls (source_role_def_id target_role_def_id : string)
    (user : User.t) : list Event :=
  let upn := or_else (User.user_principal_name user) "unknown" in
  [ AddRole target_role_def_id (User.id user) upn true;
    RemoveRole source_role_def_id (User.id user) upn true ].

(** Shape of the mutation calls of a run: each user gets an add of the
    target role followed at once by a remove of the source role; a
    call that raises is the last one. *)
Inductive GrantThenRevoke (source target : string) : list Event -> Prop :=
| gtr_done : GrantThenRevoke source target []
| gtr_add_raised (u upn : string) :
    GrantThenRevoke source target [AddRole target u upn false]
| gtr_remove_raised (u upn : string) :
    GrantThenRevoke source target
      [AddRole target u upn true; RemoveRole source u upn false]
| gtr_next (u upn : string) (rest : list Event) :
    GrantThenRevoke source target rest ->
    GrantThenRevoke source target
      (AddRole target u upn true :: RemoveRole source u upn true :: rest).

(** The users the planner keeps for one principal id: the user the
    lookup returns, when it returns one with a user principal name. *)
Definition kept (tn : Tenant) (uid : string) : list User.t :=
  match users_by_user_id_get tn uid with
  | Ok (Some u) => if truthy (User.user_principal_name u) then [u] else []
  | _ => []
  end.

(** The principal ids of the assignments of a role, in listing order. *)
Definition holders (tn : Tenant) (role_def_id : string) : list string :=
  match role_assignments_get tn with
  | Ok value =>
      map RoleAssignment.principal_id
        (filter (fun a => String.eqb (RoleAssignment.role_definition_id a) role_def_id)
                (value_or_empty value))
  | Err _ => []
  end.

(** The lines that display a plan. *)
Definition member_line (u : User.t) : Event :=
  Stdout (("  • " ++ fmt (User.display_name u) ++ " ("
           ++ fmt (User.user_principal_name u) ++ ")") ++ nl).

Definition listing (cfg : Config) (direction : Direction)
    (members : list User.t) : list Event :=
  Stdout (("Found " ++ str_of_nat (length members) ++ " user(s) with '"
           ++ source_role cfg direction ++ "':") ++ nl)
  :: map member_line members.

(** A state record without its direction tag, and a trace whose writes
    are stripped of it. *)
Definition erase_direction (j : Json) : Json :=
  match j with
  | JObj fields => JObj (filter (fun kv => negb (String.eqb (fst kv) "direction")) fields)
  | _ => j
  end.


(** Two worlds that differ at most in the state file. *)
Definition agree (w1 w2 : World) : Prop :=
  tenant w1 = tenant w2 /\ now_isoformat w1 = now_isoformat w2.

(** A computation that never looks at the state file. *)
Definition blind {A : Type} (m : M A) : Prop :=
  forall w1 w2, agree w1 w2 ->
    result_of (m w1) = result_of (m w2) /\
    trace_of (m w1) = trace_of (m w2) /\
    agree (world_of (m w1)) (world_of (m w2)).

(** ** Sample tenants *)

Module Sample.

Definition definitions : list RoleDefinition.t :=
  [ RoleDefinition.mk "id-from" (Some "Too Many Perms");
    RoleDefinition.mk "id-to" (Some "Just Right Perms") ].

Definition user (n : string) : User.t :=
  User.mk n (Some ("User " ++ n)) (Some (n ++ "@contoso.com")).

Definition assign (role : string) (principals : list string)
  : list RoleAssignment.t :=
  map (fun p => RoleAssignment.mk p role) principals.

(** Users are found under their id; "G" is a group, "X" was deleted:
    both lookups raise; "N" is a user without a user principal name
    and "E" one with an empty one; "V" returns no object. *)
Definition lookup (uid : string) : Result (option User.t) :=
  if String.eqb uid "G" then Err (ODataError "Request_ResourceNotFound")
  else if String.eqb uid "X" then Err (ODataError "Request_ResourceNotFound")
  else if String.eqb uid "N" then Ok (Some (User.mk "N" (Some "No Name") None))
  else if String.eqb uid "E" then Ok (Some (User.mk "E" (Some "Empty") (Some "")))
  else if String.eqb uid "V" then Ok None
  else Ok (Some (user uid)).

Definition tenant_with (assignments : list RoleAssignment.t) : Tenant :=
  {| role_definitions_get := Ok (Some definitions);
     role_assignments_get := Ok (Some assignments);
     users_by_user_id_get := lookup |}.

Definition world_with (assignments : list RoleAssignment.t)
    (file : option Json) : World :=
  {| tenant := tenant_with assignments;
     state_file := file;
     now_isoformat := "2025-01-15T10:30:00.000000" |}.

(** Three users hold the source role. *)
Definition three_holders : World :=
  world_with (assign "id-from" ["A"; "B"; "C"]) None.

(** Nobody holds the source role; a record of an earlier run exists. *)
Definition earlier_record : Json :=
  state_record script_config "2025-01-01T00:00:00.000000Z" forward
               [affected_entry (user "A")].

Definition no_holders : World :=
  world_with (assign "id-to" ["A"]) (Some earlier_record).


(** The source role is assigned to users, a group, a deleted principal
    and users without a usable user principal name. *)
Definition mixed_holders : World :=
  world_with (assign "id-from" ["A"; "G"; "N"; "X"; "E"; "V"; "C"]) None.

(** No definition is named like the source role. *)
Definition renamed : World :=
  {| tenant := {| role_definitions_get :=
                    Ok (Some [ RoleDefinition.mk "id-1" (Some "Too Many Perms (old)");
                               RoleDefinition.mk "id-2" (Some "too many perms");
                               RoleDefinition.mk "id-to" (Some "Just Right Perms") ]);
                  role_assignments_get := Ok (Some (assign "id-1" ["A"]));
                  users_by_user_id_get := lookup |};
     state_file := None;
     now_isoformat := "2025-01-15T10:30:00.000000" |}.

(** A create request that raises for user "B". *)
Definition raising_for_B : Mutations :=
  {| create_assignment := fun _ user_id _ tn =>
       if String.eqb user_id "B" then Err (ODataError "Authorization_RequestDenied")
       else Ok tn;
     delete_assignment := fun _ _ _ tn => Ok tn |}.

End Sample.

(** ** Further notions for reading runs *)

(** A read request to the directory. *)
Definition is_read (e : Event) : bool :=
  match e with
  | ListRoleDefinitions | ListRoleAssignments | GetUser _ => true
  | _ => false
  end.

(** The world with another content of the state file (or none). *)
Definition with_state_file (file : option Json) (w : World) : World :=
  {| tenant := tenant w; state_file := file; now_isoformat := now_isoformat w |}.

Module Scenario.

(** Two definitions carry the display name of the source role. *)
Definition twice_named : World :=
  {| tenant := {| role_definitions_get :=
                    Ok (Some [ RoleDefinition.mk "id-other" (Some "Reader");
                               RoleDefinition.mk "id-first" (Some "Too Many Perms");
                               RoleDefinition.mk "id-second" (Some "Too Many Perms");
                               RoleDefinition.mk "id-to" (Some "Just Right Perms") ]);
                  role_assignments_get := Ok (Some (Sample.assign "id-second" ["A"]));
                  users_by_user_id_get := Sample.lookup |};
     state_file := None;
     now_isoformat := "2025-01-15T10:30:00.000000" |}.

(** The listing of the role definitions raises. *)
Definition definitions_unavailable : World :=
  {| tenant := {| role_definitions_get := Err (ODataError "ServiceUnavailable");
                  role_assignments_get := Ok (Some (Sample.assign "id-from" ["A"]));
                  users_by_user_id_get := Sample.lookup |};
     state_file := None;
     now_isoformat := "2025-01-15T10:30:00.000000" |}.

(** The listing of the role assignments raises. *)
Definition assignments_unavailable : World :=
  {| tenant := {| role_definitions_get := Ok (Some Sample.definitions);
                  role_assignments_get := Err (ODataError "ServiceUnavailable");
                  users_by_user_id_get := Sample.lookup |};
     state_file := None;
     now_isoformat := "2025-01-15T10:30:00.000000" |}.

(** The lookup of "B" is interrupted (the task is cancelled). *)
Definition interrupted_at_B : World :=
  {| tenant := {| role_definitions_get := Ok (Some Sample.definitions);
                  role_assignments_get :=
                    Ok (Some (Sample.assign "id-from" ["A"; "G"; "B"; "C"]));
                  users_by_user_id_get := fun uid =>
                    if String.eqb uid "B" then Err CancelledError
                    else Sample.lookup uid |};
     state_file := None;
     now_isoformat := "2025-01-15T10:30:00.000000" |}.

End Scenario.

(** * The report script (iam.py) *)

Module Iam.

(** ** Python objects handed to [model_to_dict] *)

(** The values [model_to_dict] tells apart.  A float is kept by its
    repr and a datetime by its isoformat.  [PModel] is an object with an
    [additional_data] attribute: [attrs] is its [__dict__], in order, and
    [additional_data] the dict that attribute holds (the Graph models
    type it as a dict).  [PObject] is any other object with a
    [__dict__], and [POther] anything else, kept by its [str]. *)
#[local] Unset Elimination Schemes.
Inductive PyObj : Type :=
| PNone
| PStr (s : string)
| PInt (n : Z)
| PFloat (repr : string)
| PBool (b : bool)
| PDatetime (isoformat : string)
| PList (items : list PyObj)
| PTuple (items : list PyObj)
| PDict (items : list (string * PyObj))
| PModel (attrs : list (string * PyObj)) (additional_data : list (string * PyObj))
| PObject (attrs : list (string * PyObj))
| POther (str : string).
#[local] Set Elimination Schemes.

(** [k.startswith("_")]. *)
Definition is_private (k : string) : bool :=
  match k with
  | String c _ => Ascii.eqb c "_"%char
  | EmptyString => false
  end.

(** Dicts are kept as the list of their items, in insertion order. *)
Definition Dict : Type := list (string * PyObj).

Fixpoint dict_get (k : string) (d : Dict) : option PyObj :=
  match d with
  | [] => None
  | (k', v) :: rest => if String.eqb k' k then Some v else dict_get k rest
  end.

(** [d[k] = v]: an existing key keeps its place, a new one goes last. *)
Fixpoint dict_set (d : Dict) (k : string) (v : PyObj) : Dict :=
  match d with
  | [] => [(k, v)]
  | (k', v') :: rest =>
      if String.eqb k' k then (k', v) :: rest else (k', v') :: dict_set rest k v
  end.

(** [d.update(other)]. *)
Definition dict_update (d other : Dict) : Dict :=
  fold_left (fun acc kv => dict_set acc (fst kv) (snd kv)) other d.

Fixpoint model_to_dict (obj : PyObj) : PyObj :=
  match obj with
  | PNone => PNone
  | PStr _ | PInt _ | PFloat _ | PBool _ => obj
  | PDatetime isoformat => PStr (isoformat ++ "Z")
  | PList items | PTuple items => PList (map model_to_dict items)
  | PDict items => PDict (map (fun '(k, v) => (k, model_to_dict v)) items)
  | PModel attrs additional_data =>
      let data :=
        flat_map (fun '(k, v) => if is_private k then [] else [(k, model_to_dict v)])
                 attrs in
      match additional_data with
      | [] => PDict data
      | _ :: _ => PDict (dict_update data additional_data)
      end
  | PObject attrs =>
      PDict (flat_map (fun '(k, v) => if is_private k then []
                                      else [(k, model_to_dict v)]) attrs)
  | POther str => PStr str
  end.

(** A value made of [None], strings, numbers, booleans, lists and dicts
    only: what [json] encodes without help. *)
Fixpoint plain (obj : PyObj) : bool :=
  match obj with
  | PNone | PStr _ | PInt _ | PFloat _ | PBool _ => true
  | PList items => forallb plain items
  | PDict items => forallb (fun '(_, v) => plain v) items
  | _ => false
  end.

(** An object in which every [additional_data], wherever
    [model_to_dict] reaches it, holds plain values only. *)
Fixpoint tidy (obj : PyObj) : bool :=
  match obj with
  | PList items | PTuple items => forallb tidy items
  | PDict items => forallb (fun '(_, v) => tidy v) items
  | PModel attrs additional_data =>
      forallb (fun '(k, v) => is_private k || tidy v) attrs
      && forallb (fun '(_, v) => plain v) additional_data
  | PObject attrs => forallb (fun '(k, v) => is_private k || tidy v) attrs
  | _ => true
  end.

(** ** Graph objects read by the report *)

Module GraphUser.
Record t : Type :=
  mk { id : string;
       display_name : option string;
       user_principal_name : option string;
       on_premises_immutable_id : option string }.
End GraphUser.

Module DirectoryRole.
Record t : Type := mk { id : string; display_name : option string }.
End DirectoryRole.

(** A member of a directory role: a user, a group or a service principal. *)
Module DirectoryObject.
Record t : Type := mk { id : string; odata_type : option string }.
End DirectoryObject.

(** One page of conditional access policies. *)
Module Page.
Record t : Type :=
  mk { value : option (list PyObj); odata_next_link : option string }.
End Page.

(** What each request of the report script answers.  The request for a
    page may return no response object at all. *)
Record Client : Type := mkClient {
  users_get : Result (option (list GraphUser.t));
  directory_roles_get : Result (option (list DirectoryRole.t));
  members_get : string -> Result (option (list DirectoryObject.t));
  policies_get : Result (option Page.t);
  policies_with_url : string -> Result (option Page.t)
}.

(** ** [get_conditional_access_policies] *)

(** The [while resp] loop.  Each test of the loop uses one unit of
    [fuel]; the result is [None] when the fuel runs out before the loop
    ends. *)
Fixpoint policies_loop (fuel : nat) (c : Client) (resp : option Page.t)
    (policies : list PyObj) : option (Result (list PyObj)) :=
  match fuel with
  | O => None
  | S fuel' =>
      match resp with
      | None => Some (Ok policies)
      | Some page =>
          let policies' := (policies ++ value_or_empty (Page.value page))%list in
          match Page.odata_next_link page with
          | Some (String a l) =>
              match policies_with_url c (String a l) with
              | Ok next => policies_loop fuel' c next policies'
              | Err e => Some (Err e)
              end
          | _ => Some (Ok policies')
          end
      end
  end.

Definition get_conditional_access_policies (fuel : nat) (c : Client)
  : option (Result (list PyObj)) :=
  match policies_get c with
  | Ok resp =>
      match policies_loop fuel c resp [] with
      | Some (Ok policies) => Some (Ok (map model_to_dict policies))
      | other => other
      end
  | Err e => Some (Err e)
  end.

(** The pages reached from a response by following the next links, and
    the policies they hold, in order. *)
Inductive Pages (c : Client) : option Page.t -> list PyObj -> Prop :=
| pages_none : Pages c None []
| pages_last (page : Page.t) :
    truthy (Page.odata_next_link page) = false ->
    Pages c (Some page) (value_or_empty (Page.value page))
| pages_next (page : Page.t) (link : string) (next : option Page.t)
             (rest : list PyObj) :
    Page.odata_next_link page = Some link ->
    link <> "" ->
    policies_with_url c link = Ok next ->
    Pages c next rest ->
    Pages c (Some page) (value_or_empty (Page.value page) ++ rest)%list.

(** ** [get_users_and_roles] *)

(** A row of the report: the dict built for a user. *)
Module Row.
Record t : Type :=
  mk { id : string;
       displayName : string;
       userPrincipalName : string;
       onPremisesImmutableId : option string;
       directoryRoles : list (option string) }.
End Row.

(** [role_lookup]: user id to the display names of the user's roles. *)
Definition RoleLookup : Type := list (string * list (option string)).

(** [role_lookup.setdefault(k, []).append(v)]. *)
Fixpoint setdefault_append (d : RoleLookup) (k : string) (v : option string)
  : RoleLookup :=
  match d with
  | [] => [(k, [v])]
  | (k', l) :: rest =>
      if String.eqb k' k then (k', (l ++ [v])%list) :: rest
      else (k', l) :: setdefault_append rest k v
  end.

(** [role_lookup.get(k, [])]. *)
Fixpoint lookup_get (k : string) (d : RoleLookup) : list (option string) :=
  match d with
  | [] => []
  | (k', l) :: rest => if String.eqb k' k then l else lookup_get k rest
  end.

Definition is_user (member : DirectoryObject.t) : bool :=
  opt_eqb (DirectoryObject.odata_type member) "#microsoft.graph.user".

(** The [for member in members] loop for one role. *)
Definition add_members (role : DirectoryRole.t) (members : list DirectoryObject.t)
    (role_lookup : RoleLookup) : RoleLookup :=
  fold_left (fun acc member =>
               if is_user member
               then setdefault_append acc (DirectoryObject.id member)
                                      (DirectoryRole.display_name role)
               else acc)
            members role_lookup.

(** The [for role in roles] loop: one members request for each role. *)
Fixpoint roles_loop (c : Client) (roles : list DirectoryRole.t)
    (role_lookup : RoleLookup) : Result RoleLookup :=
  match roles with
  | [] => Ok role_lookup
  | role :: rest =>
      match members_get c (DirectoryRole.id role) with
      | Ok members_value =>
          roles_loop c rest (add_members role (value_or_empty members_value) role_lookup)
      | Err e => Err e
      end
  end.

Definition user_row (role_lookup : RoleLookup) (user : GraphUser.t) : Row.t :=
  {| Row.id := GraphUser.id user;
     Row.displayName := or_else (GraphUser.display_name user) "";
     Row.userPrincipalName := or_else (GraphUser.user_principal_name user) "";
     Row.onPremisesImmutableId := GraphUser.on_premises_immutable_id user;
     Row.directoryRoles := lookup_get (GraphUser.id user) role_lookup |}.

(** [sorted(rows, key=...)]: the stable sort by a string key, strings
    compared character by character. *)
Fixpoint insert_by {A : Type} (key : A -> string) (x : A) (l : list A) : list A :=
  match l with
  | [] => [x]
  | y :: rest =>
      if String.leb (key x) (key y) then x :: y :: rest
      else y :: insert_by key x rest
  end.

Definition sorted {A : Type} (key : A -> string) (l : list A) : list A :=
  fold_right (insert_by key) [] l.

(** The sort key of a row: [x["displayName"] or ""]. *)
Definition row_key (x : Row.t) : string := or_else (Some (Row.displayName x)) "".

Definition get_users_and_roles (c : Client) : Result (list Row.t) :=
  match users_get c with
  | Err e => Err e
  | Ok users_value =>
      let users := value_or_empty users_value in
      match directory_roles_get c with
      | Err e => Err e
      | Ok roles_value =>
          match roles_loop c (value_or_empty roles_value) [] with
          | Err e => Err e
          | Ok role_lookup => Ok (sorted row_key (map (user_row role_lookup) users))
          end
      end
  end.

(** The display names of the roles in which a user id is listed as a
    member of user type, one for each such listing, in request order. *)
Definition memberships (c : Client) (roles : list DirectoryRole.t) (uid : string)
  : list (option string) :=
  flat_map (fun role =>
              flat_map (fun member =>
                          if (is_user member
                              && String.eqb (DirectoryObject.id member) uid)%bool
                          then [DirectoryRole.display_name role] else [])
                       (match members_get c (DirectoryRole.id role) with
                        | Ok members_value => value_or_empty members_value
                        | Err _ => []
                        end))
           roles.

(** ** [generate_report] *)

Record Report : Type := mkReport {
  generatedAt : string;
  totalConditionalAccessPolicies : nat;
  totalUsers : nat;
  totalPrivilegedUsers : nat;
  conditionalAccessPolicies : list PyObj;
  usersWithDirectoryRoles : list Row.t;
  privilegedUsersOnly : list Row.t
}.

(** [if u["directoryRoles"]]: the list is not empty. *)
Definition has_roles (u : Row.t) : bool :=
  match Row.directoryRoles u with
  | [] => false
  | _ :: _ => true
  end.

(** [generate_report]: the name of the file, the report dumped into it
    and the lines printed.  [stamp] and [isoformat] are the two readings
    of the clock ([strftime] and [isoformat]), [abspath] is
    [os.path.abspath]. *)
Definition generate_report (stamp isoformat : string) (abspath : string -> string)
    (ca_policies : list PyObj) (users_with_roles : list Row.t)
  : string * Report * list string :=
  let filename := "EntraID_Report_" ++ stamp ++ ".json" in
  let privileged := filter has_roles users_with_roles in
  let report :=
    {| generatedAt := isoformat ++ "Z";
       totalConditionalAccessPolicies := length ca_policies;
       totalUsers := length users_with_roles;
       totalPrivilegedUsers := length privileged;
       conditionalAccessPolicies := ca_policies;
       usersWithDirectoryRoles := users_with_roles;
       privilegedUsersOnly := privileged |} in
  (filename, report,
   [ (nl ++ "Report saved → " ++ abspath filename) ++ nl;
     ("   • CA Policies      : " ++ str_of_nat (length ca_policies)) ++ nl;
     ("   • Total Users      : " ++ str_of_nat (length users_with_roles)) ++ nl;
     ("   • Privileged Users : " ++ str_of_nat (length privileged)) ++ nl ]).

End Iam.

(** ** A sample tenant for the report *)

Module IamSample.

Definition users : list Iam.GraphUser.t :=
  [ Iam.GraphUser.mk "u2" (Some "Bob") (Some "bob@contoso.com") None;
    Iam.GraphUser.mk "u4" None (Some "svc@contoso.com") None;
    Iam.GraphUser.mk "u1" (Some "Alice") (Some "alice@contoso.com") (Some "QWxpY2U=");
    Iam.GraphUser.mk "u3" (Some "Bob") None None ].

Definition roles : list Iam.DirectoryRole.t :=
  [ Iam.DirectoryRole.mk "r1" (Some "Global Administrator");
    Iam.DirectoryRole.mk "r2" (Some "User Administrator") ].

Definition user_member (uid : string) : Iam.DirectoryObject.t :=
  Iam.DirectoryObject.mk uid (Some "#microsoft.graph.user").

Definition members (role_id : string) : Result (option (list Iam.DirectoryObject.t)) :=
  if String.eqb role_id "r1"
  then Ok (Some [ user_member "u1";
                  Iam.DirectoryObject.mk "u2" (Some "#microsoft.graph.group") ])
  else if String.eqb role_id "r2"
  then Ok (Some [ user_member "u3"; user_member "u1" ])
  else Err (ODataError "Request_ResourceNotFound").

Definition policy (name : string) : Iam.PyObj :=
  Iam.PModel [ ("display_name", Iam.PStr name);
               ("created_date_time", Iam.PDatetime "2025-01-15T10:30:00") ]
             [].

Definition second_page : Iam.Page.t :=
  Iam.Page.mk (Some [policy "Block legacy auth"]) None.

Definition first_page : Iam.Page.t :=
  Iam.Page.mk (Some [policy "Require MFA"; policy "Require compliant device"])
              (Some "https://graph.microsoft.com/v1.0/policies?$skiptoken=2").

Definition client : Iam.Client :=
  {| Iam.users_get := Ok (Some users);
     Iam.directory_roles_get := Ok (Some roles);
     Iam.members_get := members;
     Iam.policies_get := Ok (Some first_page);
     Iam.policies_with_url := fun url =>
       if String.eqb url "https://graph.microsoft.com/v1.0/policies?$skiptoken=2"
       then Ok (Some second_page)
       else Err (ODataError "BadRequest") |}.

(** The members request of the second role raises. *)
Definition client_failing_members : Iam.Client :=
  {| Iam.users_get := Ok (Some users);
     Iam.directory_roles_get := Ok (Some roles);
     Iam.members_get := fun role_id =>
       if String.eqb role_id "r2" then Err (ODataError "Authorization_RequestDenied")
       else members role_id;
     Iam.policies_get := Ok (Some first_page);
     Iam.policies_with_url := fun _ => Err (ODataError "BadRequest") |}.

(** A page whose next link leads back to the page itself. *)
Definition looping_page : Iam.Page.t :=
  Iam.Page.mk (Some [policy "Require MFA"]) (Some "https://graph.microsoft.com/again").

Definition client_looping : Iam.Client :=
  {| Iam.users_get := Ok (Some users);
     Iam.directory_roles_get := Ok (Some roles);
     Iam.members_get := members;
     Iam.policies_get := Ok (Some looping_page);
     Iam.policies_with_url := fun _ => Ok (Some looping_page) |}.

(** The rows of the sample tenant. *)
Definition rows : list Iam.Row.t :=
  match Iam.get_users_and_roles client with
  | Ok r => r
  | Err _ => []
  end.

End IamSample.

(** ** Basic facts about runs *)

Lemma bind_run {A B : Type} (m : M A) (f : A -> M B) (w : World) :
  bind m f w =
  match result_of (m w) with
  | Ok a => (result_of (f a (world_of (m w))),
             world_of (f a (world_of (m w))),
             (trace_of (m w) ++ trace_of (f a (world_of (m w))))%list)
  | Err e => (Err e, world_of (m w), trace_of (m w))
  end.
Proof.
  unfold bind, result_of, world_of, trace_of.
  destruct (m w) as [[[a | e] w1] t1]; simpl; [|reflexivity].
  destruct (f a w1) as [[r w2] t2]; reflexivity.
Qed.

Lemma run_eta {A : Type} (x : Result A * World * list Event) :
  x = (result_of x, world_of x, trace_of x).
Proof. destruct x as [[r w] t]; reflexivity. Qed.

Lemma read_only_ret {A : Type} (a : A) : read_only (ret a).
Proof. intros w; split; reflexivity. Qed.

Lemma read_only_raise {A : Type} (e : PyExc) : read_only (@raise A e).
Proof. intros w; split; reflexivity. Qed.

Lemma read_only_emit (e : Event) : harmless e = true -> read_only (emit e).
Proof. intros H w; split; simpl; [reflexivity | rewrite H; reflexivity]. Qed.

Lemma read_only_print (s : string) : read_only (print s).
Proof. apply read_only_emit; reflexivity. Qed.

Lemma read_only_bind {A B : Type} (m : M A) (f : A -> M B) :
  read_only m -> (forall a, read_only (f a)) -> read_only (bind m f).
Proof.
  intros Hm Hf w. rewrite bind_run.
  destruct (Hm w) as [Hw Ht].
  destruct (result_of (m w)) as [a | e].
  - destruct (Hf a (world_of (m w))) as [Hw2 Ht2].
    cbn [world_of trace_of result_of fst snd] in *.
    rewrite Hw2, forallb_app, Ht2, Ht. auto.
  - split; assumption.
Qed.

Lemma read_only_try_except {A : Type} (body handler : M A) :
  read_only body -> read_only handler -> read_only (try_except body handler).
Proof.
  intros Hb Hh w. unfold try_except.
  destruct (Hb w) as [Hw Ht].
  destruct (body w) as [[[a | e] w1] t1]; unfold world_of, trace_of in *; simpl in *.
  - split; assumption.
  - destruct (is_Exception e); simpl; [|split; assumption].
    destruct (Hh w1) as [Hw2 Ht2].
    destruct (handler w1) as [[r w2] t2]; unfold world_of, trace_of in *; simpl in *.
    rewrite forallb_app, Ht, Ht2. split; [congruence | reflexivity].
Qed.

(** ** The planner only reads *)

Lemma read_only_get_all_role_definitions : read_only get_all_role_definitions.
Proof.
  intros w. unfold get_all_role_definitions.
  destruct (role_definitions_get (tenant w)); split; reflexivity.
Qed.

Lemma read_only_get_all_role_assignments : read_only get_all_role_assignments.
Proof.
  intros w. unfold get_all_role_assignments.
  destruct (role_assignments_get (tenant w)); split; reflexivity.
Qed.

Lemma read_only_get_role_definition_by_name (name : string) :
  read_only (get_role_definition_by_name name).
Proof.
  apply read_only_bind; [apply read_only_get_all_role_definitions|].
  intros defs. destruct (first_named name defs);
    [apply read_only_ret | apply read_only_raise].
Qed.

Lemma read_only_get_role_definition_id_by_name (name : string) :
  read_only (get_role_definition_id_by_name name).
Proof.
  apply read_only_bind; [apply read_only_get_role_definition_by_name|].
  intros d. apply read_only_bind; [apply read_only_print|].
  intros _. apply read_only_ret.
Qed.

Lemma read_only_users_step (uid : string) (users : list User.t) :
  read_only (users_step uid users).
Proof.
  apply read_only_try_except; [|apply read_only_ret].
  apply read_only_bind.
  - intros w; split; reflexivity.
  - intros [x|]; [|apply read_only_ret].
    destruct (truthy _); apply read_only_ret.
Qed.

Lemma read_only_users_loop (user_ids : list string) :
  forall users, read_only (users_loop user_ids users).
Proof.
  induction user_ids as [|uid rest IH]; intros users; simpl.
  - apply read_only_ret.
  - apply read_only_bind; [apply read_only_users_step | intros; apply IH].
Qed.

Lemma read_only_get_users_for_role_definition (role_def_id : string) :
  read_only (get_users_for_role_definition role_def_id).
Proof.
  apply read_only_bind.
  - apply read_only_bind; [apply read_only_get_all_role_assignments|].
    intros; apply read_only_ret.
  - intros; apply read_only_users_loop.
Qed.

Lemma read_only_resolve_plan (cfg : Config) (direction : Direction) :
  read_only (resolve_plan cfg direction).
Proof.
  apply read_only_bind; [apply read_only_get_role_definition_id_by_name|].
  intros s. apply read_only_bind; [apply read_only_get_role_definition_id_by_name|].
  intros t. apply read_only_bind; [apply read_only_get_users_for_role_definition|].
  intros; apply read_only_ret.
Qed.

Lemma read_only_print_members (members : list User.t) :
  read_only (print_members members).
Proof.
  induction members as [|u rest IH]; simpl.
  - apply read_only_ret.
  - apply read_only_bind; [apply read_only_print | intros; apply IH].
Qed.

Lemma read_only_world {A : Type} (m : M A) (w : World) :
  read_only m -> world_of (m w) = w.
Proof. intros H; apply H. Qed.

Lemma harmless_no_mutation (t : list Event) :
  forallb harmless t = true -> mutation_calls t = [].
Proof.
  induction t as [|e t IH]; simpl; [reflexivity|].
  intros H. apply andb_true_iff in H as [He Ht].
  unfold mutation_calls in *; simpl.
  destruct e; simpl in *; try discriminate; auto.
Qed.

Lemma harmless_no_write (t : list Event) :
  forallb harmless t = true -> filter is_write t = [].
Proof.
  induction t as [|e t IH]; simpl; [reflexivity|].
  intros H. apply andb_true_iff in H as [He Ht].
  destruct e; simpl in *; try discriminate; auto.
Qed.

(** [migrate] is its header, then the planning, then the execution of
    the plan in the same world. *)
Lemma migrate_run (cfg : Config) (api : Mutations) (direction : Direction)
    (dry_run : bool) (w : World) :
  migrate cfg api direction dry_run w =
  match result_of (resolve_plan cfg direction w) with
  | Ok plan =>
      (result_of (execute_plan cfg api direction dry_run plan w),
       world_of (execute_plan cfg api direction dry_run plan w),
       (header cfg direction dry_run ++ trace_of (resolve_plan cfg direction w)
        ++ trace_of (execute_plan cfg api direction dry_run plan w))%list)
  | Err e =>
      (Err e, w,
       (header cfg direction dry_run ++ trace_of (resolve_plan cfg direction w))%list)
  end.
Proof.
  unfold migrate, resolve_plan, execute_plan, header, bind, print, emit, ret.
  pose proof (read_only_world _ w
                (read_only_get_role_definition_id_by_name (source_role cfg direction)))
    as H1.
  destruct (get_role_definition_id_by_name (source_role cfg direction) w)
    as [[[src | e1] w1] t1]; cbn [result_of world_of trace_of fst snd] in *;
    subst w1; [|reflexivity].
  pose proof (read_only_world _ w
                (read_only_get_role_definition_id_by_name (target_role cfg direction)))
    as H2.
  destruct (get_role_definition_id_by_name (target_role cfg direction) w)
    as [[[tgt | e2] w2] t2]; cbn [result_of world_of trace_of fst snd] in *;
    subst w2; [|reflexivity].
  pose proof (read_only_world _ w (read_only_get_users_for_role_definition src)) as H3.
  destruct (get_users_for_role_definition src w)
    as [[[members | e3] w3] t3]; cbn [result_of world_of trace_of fst snd] in *;
    subst w3; [|reflexivity].
  rewrite !app_nil_r.
  destruct members as [|u rest].
  - cbn [result_of world_of trace_of fst snd app]. rewrite <- !app_assoc. reflexivity.
  - destruct (print_members (u :: rest) w) as [[[[] | e4] w4] t4];
      [|cbn [result_of world_of trace_of fst snd app]; rewrite <- !app_assoc; reflexivity].
    destruct dry_run.
    + cbn [result_of world_of trace_of fst snd app]. rewrite <- !app_assoc. reflexivity.
    + destruct (migrate_loop api _ _ src tgt (u :: rest) [] w4) as [[[aff | e5] w5] t5];
        cbn [result_of world_of trace_of fst snd app save_state];
        rewrite <- !app_assoc; reflexivity.
Qed.

(** ** The grant-then-revoke loop *)

Lemma mutation_calls_app (t1 t2 : list Event) :
  mutation_calls (t1 ++ t2) = (mutation_calls t1 ++ mutation_calls t2)%list.
Proof. apply filter_app. Qed.

(** One pass of the loop, case by case. *)
Lemma migrate_loop_cons (api : Mutations) (sn tn src tgt : string)
    (user : User.t) (rest : list User.t) (affected : list Json) (w : World) :
  let upn := or_else (User.user_principal_name user) "unknown" in
  let uid := User.id user in
  exists o1 o2 o3 : string,
  migrate_loop api sn tn src tgt (user :: rest) affected w =
  match create_assignment api tgt uid upn (tenant w) with
  | Err e => (Err e, w, [Stdout o1; Stdout o2; AddRole tgt uid upn false])
  | Ok tn1 =>
      match delete_assignment api src uid upn tn1 with
      | Err e =>
          (Err e, set_tenant tn1 w,
           [Stdout o1; Stdout o2; AddRole tgt uid upn true;
            Stdout o3; RemoveRole src uid upn false])
      | Ok tn2 =>
          let x := migrate_loop api sn tn src tgt rest
                                (affected ++ [affected_entry user])%list
                                (set_tenant tn2 (set_tenant tn1 w)) in
          (result_of x, world_of x,
           ([Stdout o1; Stdout o2; AddRole tgt uid upn true;
             Stdout o3; RemoveRole src uid upn true] ++ trace_of x)%list)
      end
  end.
Proof.
  intros upn uid. do 3 eexists.
  cbn [migrate_loop].
  unfold bind, print, print_end, emit,
    add_user_to_role_definition, remove_user_from_role_definition.
  fold upn uid.
  destruct (create_assignment api tgt uid upn (tenant w)) as [tn1 | e1];
    [|reflexivity].
  cbn [tenant set_tenant].
  destruct (delete_assignment api src uid upn tn1) as [tn2 | e2];
    [|reflexivity].
  destruct (migrate_loop api sn tn src tgt rest _ _) as [[r w'] t'].
  reflexivity.
Qed.

(** What the loop leaves behind: the state file and the clock are not
    touched, nothing is written, the mutation calls come in
    add-then-remove pairs in the order of the plan, and the loop either
    returns an entry for every member or stops at the first call that
    raises. *)
Lemma migrate_loop_spec (api : Mutations) (sn tn src tgt : string)
    (members : list User.t) :
  forall (affected : list Json) (w : World),
    let x := migrate_loop api sn tn src tgt members affected w in
    state_file (world_of x) = state_file w /\
    now_isoformat (world_of x) = now_isoformat w /\
    filter is_write (trace_of x) = [] /\
    GrantThenRevoke src tgt (mutation_calls (trace_of x)) /\
    match result_of x with
    | Ok aff =>
        aff = (affected ++ map affected_entry members)%list /\
        mutation_calls (trace_of x) = flat_map (pair_calls src tgt) members
    | Err _ =>
        exists done u rest,
          members = (done ++ u :: rest)%list /\
          let upn := or_else (User.user_principal_name u) "unknown" in
          (mutation_calls (trace_of x) =
             (flat_map (pair_calls src tgt) done
              ++ [AddRole tgt (User.id u) upn false])%list \/
           mutation_calls (trace_of x) =
             (flat_map (pair_calls src tgt) done
              ++ [AddRole tgt (User.id u) upn true;
                  RemoveRole src (User.id u) upn false])%list)
    end.
Proof.
  induction members as [|user rest IH]; intros affected w.
  - cbn. rewrite app_nil_r. repeat split; constructor.
  - destruct (migrate_loop_cons api sn tn src tgt user rest affected w)
      as (o1 & o2 & o3 & E).
    cbv zeta in E |- *. rewrite E. clear E.
    destruct (create_assignment api tgt (User.id user) _ (tenant w)) as [tn1 | e1].
    + destruct (delete_assignment api src (User.id user) _ tn1) as [tn2 | e2].
      * specialize (IH (affected ++ [affected_entry user])%list
                       (set_tenant tn2 (set_tenant tn1 w))).
        cbv zeta in IH. destruct IH as (Hs & Hn & Hw & Hg & Hr).
        cbn [result_of world_of trace_of fst snd].
        rewrite mutation_calls_app, filter_app, Hw.
        repeat split; try assumption.
        -- cbn. apply gtr_next. exact Hg.
        -- destruct (result_of (migrate_loop api sn tn src tgt rest _ _)) as [aff | e].
           ++ destruct Hr as [Ha Hc]. split.
              ** rewrite Ha, <- app_assoc. reflexivity.
              ** rewrite Hc. reflexivity.
           ++ destruct Hr as (done & u & rest' & Hm & Hc).
              exists (user :: done), u, rest'. split; [rewrite Hm; reflexivity|].
              cbv zeta in Hc |- *.
              destruct Hc as [Hc | Hc]; rewrite Hc; [left | right]; reflexivity.
      * cbn [result_of world_of trace_of fst snd].
        repeat split; try reflexivity.
        -- cbn. apply gtr_remove_raised.
        -- exists [], user, rest. split; [reflexivity|]. right. reflexivity.
    + cbn [result_of world_of trace_of fst snd].
      repeat split; try reflexivity.
      * cbn. apply gtr_add_raised.
      * exists [], user, rest. split; [reflexivity|]. left. reflexivity.
Qed.

(** ** Consequences of the add-then-remove shape *)

Lemma gtr_remove_preceded (src tgt : string) (l : list Event) :
  GrantThenRevoke src tgt l ->
  forall pre r u upn ok post,
    l = (pre ++ RemoveRole r u upn ok :: post)%list ->
    r = src /\ exists pre', pre = (pre' ++ [AddRole tgt u upn true])%list.
Proof.
  induction 1 as [|u0 upn0|u0 upn0|u0 upn0 rest Hrest IH];
    intros pre r u upn ok post E.
  - destruct pre; discriminate.
  - destruct pre as [|a [|b pre]]; discriminate.
  - destruct pre as [|a [|b pre]]; simpl in E; try discriminate.
    + injection E as Ha Hr Hu Hupn _ _. subst. split; [reflexivity|].
      exists []. reflexivity.
    + injection E as _ _ E. destruct pre; discriminate.
  - destruct pre as [|a [|b pre]]; simpl in E; try discriminate.
    + injection E as Ha Hr Hu Hupn _ _. subst. split; [reflexivity|].
      exists []. reflexivity.
    + injection E as <- <- E.
      destruct (IH _ _ _ _ _ _ E) as [Hr [pre' Hp]]. split; [exact Hr|].
      exists (AddRole tgt u0 upn0 true :: RemoveRole src u0 upn0 true :: pre').
      rewrite Hp. reflexivity.
Qed.

Lemma gtr_add_raised_last (src tgt : string) (l : list Event) :
  GrantThenRevoke src tgt l ->
  forall pre r u upn post,
    l = (pre ++ AddRole r u upn false :: post)%list -> post = [].
Proof.
  induction 1 as [|u0 upn0|u0 upn0|u0 upn0 rest Hrest IH];
    intros pre r u upn post E.
  - destruct pre; discriminate.
  - destruct pre as [|a pre]; simpl in E.
    + injection E as _ _ _ E. symmetry; exact E.
    + injection E as _ E. destruct pre; discriminate.
  - destruct pre as [|a [|b pre]]; simpl in E; try discriminate.
    injection E as _ _ E. destruct pre; discriminate.
  - destruct pre as [|a [|b pre]]; simpl in E; try discriminate.
    injection E as _ _ E. eapply IH; exact E.
Qed.

Lemma replay_app (p q : list Event) (h : Holdings) :
  replay (p ++ q) h = replay q (replay p h).
Proof. apply fold_left_app. Qed.

Lemma replay_mutation_calls (t : list Event) :
  forall h, replay t h = replay (mutation_calls t) h.
Proof.
  induction t as [|e t IH]; intros h; [reflexivity|].
  destruct e; cbn; apply IH.
Qed.

Lemma holds_either_add (src tgt : string) (h : Holdings) (r u v : string) :
  holds_either src tgt h v = true ->
  holds_either src tgt (set_holding h r u true) v = true.
Proof.
  unfold holds_either, set_holding. intros H.
  apply orb_true_iff in H. apply orb_true_iff.
  destruct H as [H | H]; [left | right];
    destruct (String.eqb _ r && String.eqb v u)%bool; auto.
Qed.

Lemma holds_either_pair (src tgt : string) (h : Holdings) (u v : string) :
  src <> tgt ->
  holds_either src tgt h v = true ->
  holds_either src tgt
    (set_holding (set_holding h tgt u true) src u false) v = true.
Proof.
  unfold holds_either, set_holding. intros Hne H.
  rewrite (String.eqb_refl src), (String.eqb_refl tgt).
  assert (Hts : String.eqb tgt src = false)
    by (apply String.eqb_neq; congruence).
  rewrite Hts. destruct (String.eqb v u); simpl; [reflexivity|].
  rewrite andb_false_r. exact H.
Qed.

(** Replaying any prefix of a well-shaped call sequence never takes both
    roles away from a user who held one of them. *)
Lemma gtr_keeps_a_role (src tgt : string) (l : list Event) :
  GrantThenRevoke src tgt l ->
  src <> tgt ->
  forall p q, l = (p ++ q)%list ->
  forall h v, holds_either src tgt h v = true ->
              holds_either src tgt (replay p h) v = true.
Proof.
  intros G Hne. induction G as [|u upn|u upn|u upn rest Hrest IH];
    intros p q E h v Hv.
  - destruct p; [exact Hv | discriminate].
  - destruct p as [|a [|b p]]; simpl in E; try discriminate.
    + exact Hv.
    + injection E as <- _. exact Hv.
  - destruct p as [|a [|b [|c p]]]; simpl in E; try discriminate.
    + exact Hv.
    + injection E as <- _. cbn. apply holds_either_add, Hv.
    + injection E as <- <- _. cbn. apply holds_either_add, Hv.
  - destruct p as [|a [|b p]]; simpl in E.
    + exact Hv.
    + injection E as <- _. cbn. apply holds_either_add, Hv.
    + injection E as <- <- E. cbn.
      apply (IH p q E). apply holds_either_pair; assumption.
Qed.

(** ** Runs of the pieces of [migrate] *)

Lemma print_members_run (members : list User.t) (w : World) :
  print_members members w = (Ok tt, w, map member_line members).
Proof.
  induction members as [|u rest IH]; [reflexivity|].
  cbn [print_members map]. unfold bind, print, emit. rewrite IH. reflexivity.
Qed.

Lemma execute_plan_empty (cfg : Config) (api : Mutations) (direction : Direction)
    (dry_run : bool) (src tgt : string) (w : World) :
  execute_plan cfg api direction dry_run (src, tgt, []) w =
  (Ok tt, w, [Stdout (nothing_to_do (source_role cfg direction) ++ nl)]).
Proof. reflexivity. Qed.

Lemma execute_plan_dry (cfg : Config) (api : Mutations) (direction : Direction)
    (src tgt : string) (members : list User.t) (w : World) :
  members <> [] ->
  execute_plan cfg api direction true (src, tgt, members) w =
  (Ok tt, w, (listing cfg direction members ++ [Stdout (dry_run_marker ++ nl)])%list).
Proof.
  intros Hne. destruct members as [|u rest]; [contradiction|].
  unfold execute_plan, listing, bind, print, emit.
  rewrite print_members_run. reflexivity.
Qed.

Lemma execute_plan_live (cfg : Config) (api : Mutations) (direction : Direction)
    (src tgt : string) (members : list User.t) (w : World) :
  members <> [] ->
  let l := migrate_loop api (source_role cfg direction) (target_role cfg direction)
                        src tgt members [] w in
  exists (o1 o2 : string) (o3 : list Json -> string),
    execute_plan cfg api direction false (src, tgt, members) w =
    match result_of l with
    | Ok affected =>
        let record := state_record cfg (now_isoformat w ++ "Z") direction affected in
        (Ok tt, set_state_file record (world_of l),
         (listing cfg direction members ++ Stdout o1 :: trace_of l
          ++ [WriteState record; Stdout o2; Stdout (o3 affected)])%list)
    | Err e =>
        (Err e, world_of l,
         (listing cfg direction members ++ Stdout o1 :: trace_of l)%list)
    end.
Proof.
  intros Hne l. destruct members as [|u rest]; [contradiction|].
  pose proof (migrate_loop_spec api (source_role cfg direction)
                (target_role cfg direction) src tgt (u :: rest) [] w) as S.
  cbv zeta in S. destruct S as (_ & Hn & _).
  fold l in Hn.
  eexists _, _, (fun affected => _).
  unfold execute_plan, listing, bind, print, emit.
  rewrite print_members_run. fold l.
  rewrite (run_eta l) at 1.
  destruct (result_of l) as [affected | e].
  - unfold save_state. rewrite Hn.
    cbn [app]. rewrite <- ?app_assoc. reflexivity.
  - cbn [app]. reflexivity.
Qed.

(** ** The planner *)

Lemma opt_eqb_true (o : option string) (s : string) :
  opt_eqb o s = true <-> o = Some s.
Proof.
  destruct o as [x|]; simpl.
  - rewrite String.eqb_eq. split; congruence.
  - split; discriminate.
Qed.


Lemma first_named_none (name : string) (definitions : list RoleDefinition.t) :
  first_named name definitions = None <->
  (forall d, In d definitions -> RoleDefinition.display_name d <> Some name).
Proof.
  induction definitions as [|x rest IH]; simpl.
  - split; [intros _ d [] | reflexivity].
  - destruct (opt_eqb (RoleDefinition.display_name x) name) eqn:E.
    + split; [discriminate|]. intros H. exfalso.
      apply (H x); [left; reflexivity | apply opt_eqb_true; exact E].
    + rewrite IH. split.
      * intros H d [<- | Hin]; [|apply H; exact Hin].
        intros Hd. apply opt_eqb_true in Hd. congruence.
      * intros H d Hin. apply H. right; exact Hin.
Qed.

Lemma get_role_definition_by_name_run (name : string) (w : World) :
  get_role_definition_by_name name w =
  match role_definitions_get (tenant w) with
  | Ok value =>
      match first_named name (value_or_empty value) with
      | Some d => (Ok d, w, [ListRoleDefinitions])
      | None => (Err (ValueError (not_found_message name)), w, [ListRoleDefinitions])
      end
  | Err e => (Err e, w, [ListRoleDefinitions])
  end.
Proof.
  unfold get_role_definition_by_name, bind, get_all_role_definitions.
  destruct (role_definitions_get (tenant w)) as [value | e]; [|reflexivity].
  destruct (first_named name (value_or_empty value)); reflexivity.
Qed.

Lemma get_role_definition_id_by_name_result (name : string) (w : World) :
  result_of (get_role_definition_id_by_name name w) =
  match result_of (get_role_definition_by_name name w) with
  | Ok d => Ok (RoleDefinition.id d)
  | Err e => Err e
  end.
Proof.
  unfold get_role_definition_id_by_name. rewrite bind_run.
  destruct (result_of (get_role_definition_by_name name w)); reflexivity.
Qed.

Lemma users_step_run (uid : string) (users : list User.t) (w : World) :
  users_step uid users w =
  match users_by_user_id_get (tenant w) uid with
  | Ok _ => (Ok (users ++ kept (tenant w) uid)%list, w, [GetUser uid])
  | Err e =>
      if is_Exception e then (Ok users, w, [GetUser uid])
      else (Err e, w, [GetUser uid])
  end.
Proof.
  unfold users_step, try_except, bind, users_by_user_id, kept.
  destruct (users_by_user_id_get (tenant w) uid) as [[u|] | e]; cbn.
  - destruct (truthy (User.user_principal_name u)); cbn;
      rewrite ?app_nil_r; reflexivity.
  - rewrite app_nil_r. reflexivity.
  - destruct (is_Exception e); reflexivity.
Qed.

Lemma kept_raised (tn : Tenant) (uid : string) (e : PyExc) :
  users_by_user_id_get tn uid = Err e -> kept tn uid = [].
Proof. unfold kept. intros ->. reflexivity. Qed.

(** When the loop returns, it returns the users it kept, in order. *)
Lemma users_loop_result (user_ids : list string) :
  forall users w r,
    result_of (users_loop user_ids users w) = Ok r ->
    r = (users ++ flat_map (kept (tenant w)) user_ids)%list.
Proof.
  induction user_ids as [|uid rest IH]; intros users w r.
  - cbn. rewrite app_nil_r. congruence.
  - cbn [users_loop flat_map]. rewrite bind_run, users_step_run.
    destruct (users_by_user_id_get (tenant w) uid) as [o | e] eqn:E.
    + cbn [result_of world_of trace_of fst snd]. intros H.
      rewrite (IH _ _ _ H), <- app_assoc. reflexivity.
    + rewrite (kept_raised _ _ _ E).
      destruct (is_Exception e); cbn [result_of world_of trace_of fst snd app];
        [apply IH | discriminate].
Qed.

(** When every failing lookup raises an ordinary exception, the loop
    looks every id up and returns. *)
Lemma users_loop_total (user_ids : list string) :
  forall users w,
    (forall uid e, In uid user_ids ->
                   users_by_user_id_get (tenant w) uid = Err e ->
                   is_Exception e = true) ->
    users_loop user_ids users w =
    (Ok (users ++ flat_map (kept (tenant w)) user_ids)%list, w,
     map GetUser user_ids).
Proof.
  induction user_ids as [|uid rest IH]; intros users w H.
  - cbn. rewrite app_nil_r. reflexivity.
  - cbn [users_loop flat_map map]. unfold bind. rewrite users_step_run.
    assert (Hrest : forall uid' e, In uid' rest ->
                      users_by_user_id_get (tenant w) uid' = Err e ->
                      is_Exception e = true)
      by (intros uid' e Hin; apply H; right; exact Hin).
    destruct (users_by_user_id_get (tenant w) uid) as [o | e] eqn:E.
    + rewrite (IH _ _ Hrest), <- app_assoc. reflexivity.
    + rewrite (H uid e (or_introl eq_refl) E), (kept_raised _ _ _ E).
      rewrite (IH _ _ Hrest). reflexivity.
Qed.

Lemma get_users_for_role_definition_run (role_def_id : string) (w : World)
    (value : option (list RoleAssignment.t)) :
  role_assignments_get (tenant w) = Ok value ->
  let l := users_loop (holders (tenant w) role_def_id) [] w in
  get_users_for_role_definition role_def_id w =
  (result_of l, world_of l, ListRoleAssignments :: trace_of l).
Proof.
  intros H. cbv zeta.
  unfold holders, get_users_for_role_definition,
    get_role_assignments_for_definition, bind, get_all_role_assignments, ret.
  rewrite H. cbn [app].
  destruct (users_loop _ [] w) as [[r w'] t]. reflexivity.
Qed.

Lemma get_users_for_role_definition_result (role_def_id : string) (w : World)
    (users : list User.t) :
  result_of (get_users_for_role_definition role_def_id w) = Ok users ->
  users = flat_map (kept (tenant w)) (holders (tenant w) role_def_id).
Proof.
  destruct (role_assignments_get (tenant w)) as [value | e] eqn:E.
  - rewrite (get_users_for_role_definition_run _ _ _ E).
    cbn [result_of fst]. intros H. apply users_loop_result in H. exact H.
  - unfold get_users_for_role_definition, get_role_assignments_for_definition,
      bind, get_all_role_assignments. rewrite E. discriminate.
Qed.

(** The plan of a run is made of the two resolved ids and of the users
    the planner returns for the source id. *)
Lemma resolve_plan_result (cfg : Config) (direction : Direction) (w : World)
    (src tgt : string) (members : list User.t) :
  result_of (resolve_plan cfg direction w) = Ok (src, tgt, members) <->
  result_of (get_role_definition_id_by_name (source_role cfg direction) w) = Ok src /\
  result_of (get_role_definition_id_by_name (target_role cfg direction) w) = Ok tgt /\
  result_of (get_users_for_role_definition src w) = Ok members.
Proof.
  unfold resolve_plan. rewrite bind_run.
  rewrite (read_only_world _ w (read_only_get_role_definition_id_by_name _)).
  destruct (result_of (get_role_definition_id_by_name (source_role cfg direction) w))
    as [s | e1]; [|split; [discriminate | intros [H _]; discriminate]].
  cbn [result_of fst]. rewrite bind_run.
  rewrite (read_only_world _ w (read_only_get_role_definition_id_by_name _)).
  destruct (result_of (get_role_definition_id_by_name (target_role cfg direction) w))
    as [t | e2]; [|split; [discriminate | intros (_ & H & _); discriminate]].
  cbn [result_of fst]. rewrite bind_run.
  destruct (result_of (get_users_for_role_definition s w)) as [m | e3] eqn:E3.
  - cbn. split.
    + intros H; injection H as -> -> ->. auto.
    + intros (Hs & Ht & Hm). injection Hs as ->. injection Ht as ->.
      rewrite E3 in Hm. injection Hm as ->. reflexivity.
  - split; [discriminate|]. intros (Hs & _ & Hm). injection Hs as ->.
    rewrite E3 in Hm. discriminate.
Qed.

Lemma truthy_some (o : option string) :
  truthy o = true <-> exists s, o = Some s /\ s <> "".
Proof.
  destruct o as [[|c s]|]; simpl; split; try discriminate.
  - intros (s & H & Hne). injection H as <-. contradiction.
  - intros _. eexists; split; [reflexivity | discriminate].
  - reflexivity.
  - intros (s & H & _). discriminate.
Qed.

Lemma in_kept (tn : Tenant) (uid : string) (u : User.t) :
  In u (kept tn uid) <->
  users_by_user_id_get tn uid = Ok (Some u) /\
  truthy (User.user_principal_name u) = true.
Proof.
  unfold kept. destruct (users_by_user_id_get tn uid) as [[x|] | e].
  - destruct (truthy (User.user_principal_name x)) eqn:E; simpl.
    + split.
      * intros [<- | []]. auto.
      * intros [H _]. injection H as <-. left; reflexivity.
    + split; [intros [] | intros [H Ht]]. injection H as <-. congruence.
  - simpl. split; [intros [] | intros [H _]; discriminate].
  - simpl. split; [intros [] | intros [H _]; discriminate].
Qed.

Lemma users_loop_no_stdout (user_ids : list string) :
  forall users w,
    filter is_stdout (trace_of (users_loop user_ids users w)) = [].
Proof.
  induction user_ids as [|uid rest IH]; intros users w; [reflexivity|].
  cbn [users_loop]. rewrite bind_run, users_step_run.
  destruct (users_by_user_id_get (tenant w) uid) as [o | e].
  - cbn [result_of world_of trace_of fst snd]. rewrite filter_app, IH. reflexivity.
  - destruct (is_Exception e); cbn [result_of world_of trace_of fst snd];
      [rewrite filter_app, IH|]; reflexivity.
Qed.

Lemma get_users_for_role_definition_no_stdout (role_def_id : string) (w : World) :
  filter is_stdout (trace_of (get_users_for_role_definition role_def_id w)) = [].
Proof.
  destruct (role_assignments_get (tenant w)) as [value | e] eqn:E.
  - rewrite (get_users_for_role_definition_run _ _ _ E).
    cbn [trace_of snd filter is_stdout]. apply users_loop_no_stdout.
  - unfold get_users_for_role_definition, get_role_assignments_for_definition,
      bind, get_all_role_assignments. rewrite E. reflexivity.
Qed.

(** ** Properties of the planner *)

(** C9.  When the assignments can be listed and every lookup that fails
    raises an ordinary exception (the principal is gone, or is a group
    or a service principal), [get_users_for_role_definition] returns: it
    looks up every holder of the role, also after a failed lookup, and
    its result is made, in listing order, of exactly the users whose
    lookup succeeded (and who carry a user principal name). *)
Theorem unresolvable_principals_are_dropped
    (role_def_id : string) (w : World) (value : option (list RoleAssignment.t)) :
  role_assignments_get (tenant w) = Ok value ->
  (forall uid e, In uid (holders (tenant w) role_def_id) ->
                 users_by_user_id_get (tenant w) uid = Err e ->
                 is_Exception e = true) ->
  let x := get_users_for_role_definition role_def_id w in
  let plan := flat_map (kept (tenant w)) (holders (tenant w) role_def_id) in
  result_of x = Ok plan /\
  world_of x = w /\
  trace_of x = ListRoleAssignments :: map GetUser (holders (tenant w) role_def_id) /\
  (forall uid e, In uid (holders (tenant w) role_def_id) ->
                 users_by_user_id_get (tenant w) uid = Err e ->
                 kept (tenant w) uid = []) /\
  (forall u, In u plan <->
             exists uid, In uid (holders (tenant w) role_def_id) /\
                         users_by_user_id_get (tenant w) uid = Ok (Some u) /\
                         truthy (User.user_principal_name u) = true).
Proof.
  intros Hv Hexc. cbv zeta.
  rewrite (get_users_for_role_definition_run _ _ _ Hv).
  rewrite (users_loop_total _ [] w Hexc).
  cbn [result_of world_of trace_of fst snd app].
  repeat split; try reflexivity.
  - intros uid e _ H. exact (kept_raised _ _ _ H).
  - intros H. apply in_flat_map in H as (uid & Hin & Hk).
    exists uid. split; [exact Hin | apply in_kept; exact Hk].
  - intros (uid & Hin & Hk). apply in_flat_map.
    exists uid. split; [exact Hin | apply in_kept; exact Hk].
Qed.

Lemma unresolvable_principals_are_dropped_witness :
  result_of (get_users_for_role_definition "id-from" Sample.mixed_holders)
  = Ok [Sample.user "A"; Sample.user "C"].
Proof.
  refine (proj1 (unresolvable_principals_are_dropped "id-from" Sample.mixed_holders
                   (Some (Sample.assign "id-from" ["A"; "G"; "N"; "X"; "E"; "V"; "C"]))
                   eq_refl _)).
  intros uid e Hin. vm_compute in Hin.
  repeat (destruct Hin as [<- | Hin]; [vm_compute; intros H; inversion H; reflexivity|]).
  destruct Hin.
Defined.

(** C10.  In every run, each user of the resolved plan has a non-empty
    user principal name: a holder whose lookup returns a user without
    one (absent or empty) is left out, and the planner prints nothing
    about it. *)
Theorem plan_users_have_upn
    (cfg : Config) (direction : Direction) (w : World)
    (src tgt : string) (members : list User.t) :
  result_of (resolve_plan cfg direction w) = Ok (src, tgt, members) ->
  (forall u, In u members ->
             exists s, User.user_principal_name u = Some s /\ s <> "") /\
  (forall uid u, users_by_user_id_get (tenant w) uid = Ok (Some u) ->
                 truthy (User.user_principal_name u) = false ->
                 kept (tenant w) uid = [] /\ ~ In u members) /\
  members = flat_map (kept (tenant w)) (holders (tenant w) src) /\
  filter is_stdout (trace_of (get_users_for_role_definition src w)) = [].
Proof.
  intros H. apply resolve_plan_result in H as (_ & _ & Hm).
  pose proof (get_users_for_role_definition_result _ _ _ Hm) as ->.
  repeat split.
  - intros u Hin. apply in_flat_map in Hin as (uid & _ & Hk).
    apply in_kept in Hk as [_ Ht]. apply truthy_some; exact Ht.
  - unfold kept. rewrite H. rewrite H0. reflexivity.
  - intros Hin. apply in_flat_map in Hin as (uid' & _ & Hk).
    apply in_kept in Hk as [_ Ht]. congruence.
  - apply get_users_for_role_definition_no_stdout.
Qed.

Lemma plan_users_have_upn_witness :
  exists s, User.user_principal_name (Sample.user "C") = Some s /\ s <> "".
Proof.
  apply (proj1 (plan_users_have_upn script_config forward Sample.mixed_holders
                  "id-from" "id-to" [Sample.user "A"; Sample.user "C"] eq_refl)).
  right. left. reflexivity.
Defined.

(** ** Runs that change nothing *)

Lemma header_harmless (cfg : Config) (direction : Direction) (dry_run : bool) :
  forallb harmless (header cfg direction dry_run) = true.
Proof. reflexivity. Qed.

Lemma listing_harmless (cfg : Config) (direction : Direction)
    (members : list User.t) :
  forallb harmless (listing cfg direction members) = true.
Proof.
  unfold listing. cbn [forallb harmless is_mutation is_write orb negb andb].
  induction members as [|u rest IH]; [reflexivity | exact IH].
Qed.

Lemma planning_harmless (cfg : Config) (direction : Direction) (dry_run : bool)
    (w : World) :
  forallb harmless (header cfg direction dry_run
                    ++ trace_of (resolve_plan cfg direction w)) = true.
Proof.
  rewrite forallb_app, header_harmless.
  apply (read_only_resolve_plan cfg direction w).
Qed.

(** A run whose planning raises stops there: same world, no mutation
    call, no write. *)
Lemma migrate_planning_failed (cfg : Config) (api : Mutations)
    (direction : Direction) (dry_run : bool) (w : World) (e : PyExc) :
  result_of (resolve_plan cfg direction w) = Err e ->
  let x := migrate cfg api direction dry_run w in
  result_of x = Err e /\ world_of x = w /\
  mutation_calls (trace_of x) = [] /\ filter is_write (trace_of x) = [].
Proof.
  intros H. cbv zeta. rewrite migrate_run, H.
  cbn [result_of world_of trace_of fst snd].
  pose proof (planning_harmless cfg direction dry_run w) as Hh.
  repeat split; [apply harmless_no_mutation | apply harmless_no_write]; exact Hh.
Qed.

(** A run whose plan is empty prints the nothing-to-do line and stops. *)
Lemma migrate_empty_plan (cfg : Config) (api : Mutations)
    (direction : Direction) (dry_run : bool) (w : World) (src tgt : string) :
  result_of (resolve_plan cfg direction w) = Ok (src, tgt, []) ->
  let x := migrate cfg api direction dry_run w in
  result_of x = Ok tt /\ world_of x = w /\
  mutation_calls (trace_of x) = [] /\ filter is_write (trace_of x) = [] /\
  trace_of x = (header cfg direction dry_run
                ++ trace_of (resolve_plan cfg direction w)
                ++ [Stdout (nothing_to_do (source_role cfg direction) ++ nl)])%list.
Proof.
  intros H. cbv zeta. rewrite migrate_run, H, execute_plan_empty.
  cbn [result_of world_of trace_of fst snd].
  pose proof (planning_harmless cfg direction dry_run w) as Hh.
  repeat split.
  - rewrite app_assoc, mutation_calls_app, (harmless_no_mutation _ Hh). reflexivity.
  - rewrite app_assoc, filter_app, (harmless_no_write _ Hh). reflexivity.
Qed.

(** A dry run of a non-empty plan displays the plan and stops. *)
Lemma migrate_dry_plan (cfg : Config) (api : Mutations)
    (direction : Direction) (w : World) (src tgt : string)
    (members : list User.t) :
  result_of (resolve_plan cfg direction w) = Ok (src, tgt, members) ->
  members <> [] ->
  migrate cfg api direction true w =
  (Ok tt, w,
   (header cfg direction true ++ trace_of (resolve_plan cfg direction w)
    ++ listing cfg direction members ++ [Stdout (dry_run_marker ++ nl)])%list).
Proof.
  intros H Hne. rewrite migrate_run, H, (execute_plan_dry _ _ _ _ _ _ _ Hne).
  reflexivity.
Qed.



(** C8.  When both roles resolve and no assignment of the source role
    exists, the run returns normally, its last output is the
    nothing-to-do line, it makes no mutation call and does not write the
    state file: the world, and with it any earlier record, is as before. *)
Theorem nothing_to_do_when_no_holders
    (cfg : Config) (api : Mutations) (direction : Direction) (dry_run : bool)
    (w : World) (src tgt : string) (value : option (list RoleAssignment.t)) :
  result_of (get_role_definition_id_by_name (source_role cfg direction) w) = Ok src ->
  result_of (get_role_definition_id_by_name (target_role cfg direction) w) = Ok tgt ->
  role_assignments_get (tenant w) = Ok value ->
  holders (tenant w) src = [] ->
  let x := migrate cfg api direction dry_run w in
  result_of x = Ok tt /\
  world_of x = w /\
  state_file (world_of x) = state_file w /\
  mutation_calls (trace_of x) = [] /\
  filter is_write (trace_of x) = [] /\
  trace_of x = (header cfg direction dry_run
                ++ trace_of (resolve_plan cfg direction w)
                ++ [Stdout (nothing_to_do (source_role cfg direction) ++ nl)])%list.
Proof.
  intros Hs Ht Hv Hh.
  assert (Hplan : result_of (resolve_plan cfg direction w) = Ok (src, tgt, [])).
  { apply resolve_plan_result. repeat split; try assumption.
    rewrite (get_users_for_role_definition_run _ _ _ Hv), Hh. reflexivity. }
  destruct (migrate_empty_plan cfg api direction dry_run w src tgt Hplan)
    as (Hr & Hw & Hc & Hwr & Htr).
  cbv zeta. repeat split; try assumption. rewrite Hw. reflexivity.
Qed.

Lemma nothing_to_do_when_no_holders_witness :
  let x := migrate script_config stub forward false Sample.no_holders in
  result_of x = Ok tt /\ state_file (world_of x) = Some Sample.earlier_record.
Proof.
  destruct (nothing_to_do_when_no_holders script_config stub forward false
              Sample.no_holders "id-from" "id-to"
              (Some (Sample.assign "id-to" ["A"]))
              eq_refl eq_refl eq_refl eq_refl) as (Hr & _ & Hs & _).
  split; [exact Hr | exact Hs].
Defined.



(** ** Live runs *)

Lemma planning_calls (cfg : Config) (direction : Direction) (dry_run : bool)
    (w : World) (t : list Event) :
  mutation_calls (header cfg direction dry_run
                  ++ trace_of (resolve_plan cfg direction w) ++ t) = mutation_calls t.
Proof.
  rewrite (app_assoc (header cfg direction dry_run)), mutation_calls_app.
  rewrite (harmless_no_mutation _ (planning_harmless cfg direction dry_run w)).
  reflexivity.
Qed.

Lemma planning_writes (cfg : Config) (direction : Direction) (dry_run : bool)
    (w : World) (t : list Event) :
  filter is_write (header cfg direction dry_run
                   ++ trace_of (resolve_plan cfg direction w) ++ t)
  = filter is_write t.
Proof.
  rewrite (app_assoc (header cfg direction dry_run)), filter_app.
  rewrite (harmless_no_write _ (planning_harmless cfg direction dry_run w)).
  reflexivity.
Qed.

Lemma listing_calls (cfg : Config) (direction : Direction)
    (members : list User.t) (t : list Event) :
  mutation_calls (listing cfg direction members ++ t) = mutation_calls t.
Proof.
  rewrite mutation_calls_app, (harmless_no_mutation _ (listing_harmless _ _ _)).
  reflexivity.
Qed.

Lemma listing_writes (cfg : Config) (direction : Direction)
    (members : list User.t) (t : list Event) :
  filter is_write (listing cfg direction members ++ t) = filter is_write t.
Proof.
  rewrite filter_app, (harmless_no_write _ (listing_harmless _ _ _)).
  reflexivity.
Qed.

(** A live run of a non-empty plan: its mutation calls are those of the
    loop; it writes the state file once, after the loop, when the loop
    returns, and not at all when the loop raises. *)
Lemma migrate_live_plan (cfg : Config) (api : Mutations) (direction : Direction)
    (w : World) (src tgt : string) (members : list User.t) :
  result_of (resolve_plan cfg direction w) = Ok (src, tgt, members) ->
  members <> [] ->
  let l := migrate_loop api (source_role cfg direction) (target_role cfg direction)
                        src tgt members [] w in
  let x := migrate cfg api direction false w in
  mutation_calls (trace_of x) = mutation_calls (trace_of l) /\
  (exists rest,
      trace_of x = (header cfg direction false
                    ++ trace_of (resolve_plan cfg direction w)
                    ++ listing cfg direction members ++ rest)%list) /\
  match result_of l with
  | Ok affected =>
      let record := state_record cfg (now_isoformat w ++ "Z") direction affected in
      result_of x = Ok tt /\
      world_of x = set_state_file record (world_of l) /\
      filter is_write (trace_of x) = [WriteState record]
  | Err e =>
      result_of x = Err e /\
      world_of x = world_of l /\
      filter is_write (trace_of x) = []
  end.
Proof.
  intros Hplan Hne. cbv zeta.
  destruct (execute_plan_live cfg api direction src tgt members w Hne)
    as (o1 & o2 & o3 & E). cbv zeta in E.
  rewrite migrate_run, Hplan, E. clear E.
  pose proof (migrate_loop_spec api (source_role cfg direction)
                (target_role cfg direction) src tgt members [] w) as S.
  cbv zeta in S. destruct S as (_ & _ & Hw & _).
  set (l := migrate_loop api _ _ src tgt members [] w) in *.
  destruct (result_of l) as [affected | e];
    cbn [result_of world_of trace_of fst snd];
    rewrite planning_calls, planning_writes, listing_calls, listing_writes.
  - split; [|split; [|repeat split]].
    + change (Stdout o1 :: trace_of l ++ ?t)%list
        with ([Stdout o1] ++ trace_of l ++ t)%list.
      rewrite !mutation_calls_app. cbn. rewrite app_nil_r. reflexivity.
    + eexists. reflexivity.
    + change (Stdout o1 :: trace_of l ++ ?t)%list
        with ([Stdout o1] ++ trace_of l ++ t)%list.
      rewrite !filter_app, Hw. reflexivity.
  - split; [|split; [|repeat split]].
    + reflexivity.
    + eexists. reflexivity.
    + cbn [filter is_write]. exact Hw.
Qed.

(** The mutation calls of any run whose planning succeeds come in
    add-then-remove pairs. *)
Lemma migrate_calls_shape (cfg : Config) (api : Mutations) (direction : Direction)
    (dry_run : bool) (w : World) (src tgt : string) (members : list User.t) :
  result_of (resolve_plan cfg direction w) = Ok (src, tgt, members) ->
  GrantThenRevoke src tgt (mutation_calls (trace_of (migrate cfg api direction dry_run w))).
Proof.
  intros Hplan. destruct members as [|u rest].
  - destruct (migrate_empty_plan cfg api direction dry_run w src tgt Hplan)
      as (_ & _ & Hc & _). rewrite Hc. constructor.
  - assert (Hne : u :: rest <> []) by discriminate.
    destruct dry_run.
    + rewrite (migrate_dry_plan cfg api direction w src tgt _ Hplan Hne).
      cbn [trace_of snd]. rewrite planning_calls, listing_calls. constructor.
    + destruct (migrate_live_plan cfg api direction w src tgt _ Hplan Hne)
        as (Hc & _). rewrite Hc.
      apply (migrate_loop_spec api (source_role cfg direction)
               (target_role cfg direction) src tgt (u :: rest) [] w).
Qed.




(** C3.  In a live run the mutation calls obey grant-before-revoke:
    every remove is a remove of the source role and comes right after a
    successful add of the target role to the same principal; an add
    that raises is the last call of the run, so no remove follows it.
    Read as changes of role membership (with distinct source and target
    roles), at no point of the run has a principal who held one of the
    two roles lost both. *)
Theorem grant_before_revoke
    (cfg : Config) (api : Mutations) (direction : Direction) (w : World)
    (src tgt : string) (members : list User.t) :
  result_of (resolve_plan cfg direction w) = Ok (src, tgt, members) ->
  let t := trace_of (migrate cfg api direction false w) in
  (forall pre r u upn ok post,
      mutation_calls t = (pre ++ RemoveRole r u upn ok :: post)%list ->
      r = src /\ exists pre', pre = (pre' ++ [AddRole tgt u upn true])%list) /\
  (forall pre r u upn post,
      mutation_calls t = (pre ++ AddRole r u upn false :: post)%list ->
      post = []) /\
  (src <> tgt ->
   forall p q, t = (p ++ q)%list ->
   forall h v, holds_either src tgt h v = true ->
               holds_either src tgt (replay p h) v = true).
Proof.
  intros Hplan. cbv zeta.
  pose proof (migrate_calls_shape cfg api direction false w src tgt members Hplan)
    as G.
  split; [|split].
  - intros pre r u upn ok post E. exact (gtr_remove_preceded _ _ _ G _ _ _ _ _ _ E).
  - intros pre r u upn post E. exact (gtr_add_raised_last _ _ _ G _ _ _ _ _ E).
  - intros Hne p q E h v Hv. rewrite replay_mutation_calls.
    apply (gtr_keeps_a_role _ _ _ G Hne (mutation_calls p) (mutation_calls q));
      [|exact Hv].
    rewrite E. apply mutation_calls_app.
Qed.

Lemma grant_before_revoke_witness :
  "id-from" = "id-from" /\
  exists pre',
    [AddRole "id-to" "A" "A@contoso.com" true]
    = (pre' ++ [AddRole "id-to" "A" "A@contoso.com" true])%list.
Proof.
  exact (proj1 (grant_before_revoke script_config Sample.raising_for_B
                  forward Sample.three_holders "id-from" "id-to"
                  [Sample.user "A"; Sample.user "B"; Sample.user "C"]
                  eq_refl)
               [AddRole "id-to" "A" "A@contoso.com" true]
               "id-from" "A" "A@contoso.com" true
               [AddRole "id-to" "B" "B@contoso.com" false]
               eq_refl).
Defined.

Lemma added_user_ids_app (t1 t2 : list Event) :
  added_user_ids (t1 ++ t2) = (added_user_ids t1 ++ added_user_ids t2)%list.
Proof. apply flat_map_app. Qed.

Lemma added_user_ids_calls (t : list Event) :
  added_user_ids t = added_user_ids (mutation_calls t).
Proof.
  induction t as [|e t IH]; [reflexivity|].
  unfold added_user_ids, mutation_calls in *.
  destruct e; cbn [flat_map filter is_mutation app]; rewrite IH; reflexivity.
Qed.

Lemma added_user_ids_pairs (src tgt : string) (members : list User.t) :
  added_user_ids (flat_map (pair_calls src tgt) members) = map User.id members.
Proof.
  induction members as [|u rest IH]; [reflexivity|].
  cbn [flat_map map]. rewrite added_user_ids_app, IH. reflexivity.
Qed.

(** C4, as the script has it.  A dry run of a resolved plan returns
    normally, leaves the world as it was and makes no mutation call and
    no write, whatever the size of the plan.  For a non-empty plan it
    displays the plan and ends with the no-changes-made line; for an
    empty plan it ends with the nothing-to-do line instead.  A live run
    in the same world displays the same list, and adds the target role
    to those principals in that order (to all of them when it returns). *)
Theorem dry_run_previews_the_plan
    (cfg : Config) (api : Mutations) (direction : Direction) (w : World)
    (src tgt : string) (members : list User.t) :
  result_of (resolve_plan cfg direction w) = Ok (src, tgt, members) ->
  let x := migrate cfg api direction true w in
  let y := migrate cfg api direction false w in
  let planning := (header cfg direction true
                   ++ trace_of (resolve_plan cfg direction w))%list in
  result_of x = Ok tt /\
  world_of x = w /\
  mutation_calls (trace_of x) = [] /\
  filter is_write (trace_of x) = [] /\
  trace_of x =
    match members with
    | [] => (planning ++ [Stdout (nothing_to_do (source_role cfg direction) ++ nl)])%list
    | _ :: _ => (planning ++ listing cfg direction members
                 ++ [Stdout (dry_run_marker ++ nl)])%list
    end /\
  match members with
  | [] => trace_of y = (header cfg direction false
                        ++ trace_of (resolve_plan cfg direction w)
                        ++ [Stdout (nothing_to_do (source_role cfg direction) ++ nl)])%list
  | _ :: _ => exists rest,
      trace_of y = (header cfg direction false
                    ++ trace_of (resolve_plan cfg direction w)
                    ++ listing cfg direction members ++ rest)%list
  end /\
  exists done rest,
    members = (done ++ rest)%list /\
    added_user_ids (trace_of y) = map User.id done /\
    (result_of y = Ok tt -> rest = []).
Proof.
  intros Hplan. cbv zeta. destruct members as [|u rest].
  - destruct (migrate_empty_plan cfg api direction true w src tgt Hplan)
      as (Hr & Hw & Hc & Hwr & Ht).
    destruct (migrate_empty_plan cfg api direction false w src tgt Hplan)
      as (_ & _ & Hc' & _ & Ht').
    repeat split; try assumption.
    exists [], []. rewrite added_user_ids_calls, Hc'. repeat split.
  - assert (Hne : u :: rest <> []) by discriminate.
    rewrite (migrate_dry_plan cfg api direction w src tgt _ Hplan Hne).
    cbn [result_of world_of trace_of fst snd].
    rewrite planning_calls, planning_writes, listing_calls, listing_writes.
    destruct (migrate_live_plan cfg api direction w src tgt _ Hplan Hne)
      as (Hc & Hshow & Hr). cbv zeta in Hr.
    repeat split; try reflexivity; try exact Hshow.
    rewrite added_user_ids_calls, Hc.
    {
      pose proof (migrate_loop_spec api (source_role cfg direction)
                    (target_role cfg direction) src tgt (u :: rest) [] w) as S.
      cbv zeta in S. destruct S as (_ & _ & _ & _ & Hl).
      destruct (result_of (migrate_loop api _ _ src tgt (u :: rest) [] w))
        as [affected | e].
      * destruct Hl as [_ Hcalls]. exists (u :: rest), [].
        rewrite Hcalls, added_user_ids_pairs, app_nil_r. repeat split.
      * destruct Hr as (Hres & _). destruct Hl as (done & v & rest' & Hm & Hcalls).
        exists (done ++ [v])%list, rest'.
        split; [rewrite Hm, <- app_assoc; reflexivity|].
        split; [|rewrite Hres; discriminate].
        cbv zeta in Hcalls. destruct Hcalls as [-> | ->];
          rewrite added_user_ids_app, added_user_ids_pairs, map_app; reflexivity.
    }
Qed.

Lemma dry_run_previews_the_plan_witness :
  let x := migrate script_config stub forward true Sample.mixed_holders in
  result_of x = Ok tt /\ world_of x = Sample.mixed_holders /\
  mutation_calls (trace_of x) = [].
Proof.
  destruct (dry_run_previews_the_plan script_config stub forward
              Sample.mixed_holders "id-from" "id-to"
              [Sample.user "A"; Sample.user "C"] eq_refl)
    as (Hr & Hw & Hc & _).
  split; [exact Hr | split; [exact Hw | exact Hc]].
Defined.

(** C4, as stated, fails on an empty plan: the dry run then ends with
    the nothing-to-do line and never prints the no-changes-made line. *)
Lemma dry_run_of_empty_plan_has_no_marker :
  let x := migrate script_config stub forward true Sample.no_holders in
  result_of x = Ok tt /\
  last (trace_of x) (Stdout "")
  = Stdout ("No users found with 'Too Many Perms'. Nothing to do." ++ nl) /\
  filter (fun e => match e with
                   | Stdout s => String.eqb s (dry_run_marker ++ nl)
                   | _ => false
                   end) (trace_of x) = [].
Proof.
  vm_compute. repeat split.
Qed.

(** ** The state file *)

(** What a run of [migrate] leaves in the state file: what was there, or
    the record of this run. *)
Lemma migrate_state_file (cfg : Config) (api : Mutations) (direction : Direction)
    (dry_run : bool) (w : World) :
  let x := migrate cfg api direction dry_run w in
  state_file (world_of x) = state_file w \/
  exists members,
    state_file (world_of x)
    = Some (state_record cfg (now_isoformat w ++ "Z") direction
                         (map affected_entry members)).
Proof.
  cbv zeta.
  destruct (result_of (resolve_plan cfg direction w)) as [[[src tgt] members] | e]
    eqn:Hplan.
  - destruct members as [|u rest].
    + left. destruct (migrate_empty_plan cfg api direction dry_run w src tgt Hplan)
        as (_ & -> & _). reflexivity.
    + assert (Hne : u :: rest <> []) by discriminate. destruct dry_run.
      * left. rewrite (migrate_dry_plan cfg api direction w src tgt _ Hplan Hne).
        reflexivity.
      * destruct (migrate_live_plan cfg api direction w src tgt _ Hplan Hne)
          as (_ & _ & Hr). cbv zeta in Hr.
        pose proof (migrate_loop_spec api (source_role cfg direction)
                      (target_role cfg direction) src tgt (u :: rest) [] w) as S.
        cbv zeta in S. destruct S as (Hs & _ & _ & _ & Hl).
        destruct (result_of (migrate_loop api _ _ src tgt (u :: rest) [] w))
          as [affected | e].
        -- right. exists (u :: rest).
           destruct Hr as (_ & -> & _). destruct Hl as [-> _]. reflexivity.
        -- left. destruct Hr as (_ & -> & _). exact Hs.
  - left. destruct (migrate_planning_failed cfg api direction dry_run w e Hplan)
      as (_ & -> & _). reflexivity.
Qed.

(** C6, as the script has it.  [save_state] replaces whatever the state
    file held by one record with the fields [timestamp] (the clock's
    isoformat followed by "Z"), [direction] ("forward" or "rollback"),
    [from_role], [to_role] and [affected_users], in that order; each
    affected user is an object with the fields [userId], [displayName]
    and [userPrincipalName].  A run of [migrate] leaves in the state
    file either what was there or such a record. *)
Theorem state_record_format
    (cfg : Config) (api : Mutations) (direction : Direction) (dry_run : bool)
    (affected : list Json) (w : World) :
  let record (entries : list Json) :=
    JObj [ ("timestamp", JStr (now_isoformat w ++ "Z"));
           ("direction", JStr (match direction with
                               | forward => "forward"
                               | rollback => "rollback"
                               end));
           ("from_role", JStr (source_role cfg direction));
           ("to_role", JStr (target_role cfg direction));
           ("affected_users", JList entries) ] in
  let x := save_state cfg direction affected w in
  let y := migrate cfg api direction dry_run w in
  result_of x = Ok tt /\
  state_file (world_of x) = Some (record affected) /\
  tenant (world_of x) = tenant w /\
  (forall u,
      affected_entry u
      = JObj [ ("userId", JStr (User.id u));
               ("displayName", to_json (User.display_name u));
               ("userPrincipalName",
                JStr (or_else (User.user_principal_name u) "unknown")) ]) /\
  (state_file (world_of y) = state_file w \/
   exists members,
     state_file (world_of y) = Some (record (map affected_entry members))).
Proof.
  cbv zeta. split; [reflexivity|]. split; [destruct direction; reflexivity|].
  split; [reflexivity|]. split; [reflexivity|].
  - destruct (migrate_state_file cfg api direction dry_run w) as [H | [members H]].
    + left. exact H.
    + right. exists members. rewrite H. destruct direction; reflexivity.
Qed.

(** C6, as stated, fails on the field names: the record of a live run
    has [from_role], [to_role] and [affected_users], not [fromRole],
    [toRole] and [affectedUsers]. *)
Lemma state_record_fields_are_not_camel_case :
  let x := migrate script_config stub forward false Sample.three_holders in
  option_map keys (state_file (world_of x))
  = Some ["timestamp"; "direction"; "from_role"; "to_role"; "affected_users"] /\
  option_map keys (state_file (world_of x))
  <> Some ["timestamp"; "direction"; "fromRole"; "toRole"; "affectedUsers"].
Proof.
  vm_compute. split; [reflexivity | discriminate].
Qed.

(** ** Rollback *)

Lemma agree_refl (w : World) : agree w w.
Proof. split; reflexivity. Qed.

Lemma blind_ret {A : Type} (a : A) : blind (ret a).
Proof. intros w1 w2 H. repeat split; apply H. Qed.

Lemma blind_raise {A : Type} (e : PyExc) : blind (@raise A e).
Proof. intros w1 w2 H. repeat split; apply H. Qed.

Lemma blind_emit (e : Event) : blind (emit e).
Proof. intros w1 w2 H. repeat split; apply H. Qed.

Lemma blind_bind {A B : Type} (m : M A) (f : A -> M B) :
  blind m -> (forall a, blind (f a)) -> blind (bind m f).
Proof.
  intros Hm Hf w1 w2 H. rewrite !bind_run.
  destruct (Hm w1 w2 H) as (Hr & Ht & Hw). rewrite Hr, Ht.
  destruct (result_of (m w2)) as [a | e];
    cbn [result_of world_of trace_of fst snd].
  - destruct (Hf a _ _ Hw) as (Hr2 & Ht2 & Hw2). rewrite Hr2, Ht2. auto.
  - auto.
Qed.

Lemma blind_try_except {A : Type} (body handler : M A) :
  blind body -> blind handler -> blind (try_except body handler).
Proof.
  intros Hb Hh w1 w2 H. unfold try_except.
  destruct (Hb w1 w2 H) as (Hr & Ht & Hw).
  destruct (body w1) as [[r1 v1] t1], (body w2) as [[r2 v2] t2].
  cbn [result_of world_of trace_of fst snd] in *. subst r2 t2.
  destruct r1 as [a | e]; [auto|].
  destruct (is_Exception e); [|auto].
  destruct (Hh v1 v2 Hw) as (Hr2 & Ht2 & Hw2).
  destruct (handler v1) as [[r3 v3] t3], (handler v2) as [[r4 v4] t4].
  cbn [result_of world_of trace_of fst snd] in *. subst r4 t4. auto.
Qed.

Lemma blind_get_role_definition_id_by_name (name : string) :
  blind (get_role_definition_id_by_name name).
Proof.
  apply blind_bind.
  - apply blind_bind.
    + intros w1 w2 [Ht Hn]. unfold get_all_role_definitions. rewrite Ht.
      destruct (role_definitions_get (tenant w2)); repeat split; assumption.
    + intros defs. destruct (first_named name defs);
        [apply blind_ret | apply blind_raise].
  - intros d. apply blind_bind; [apply blind_emit | intros; apply blind_ret].
Qed.

Lemma blind_users_loop (user_ids : list string) :
  forall users, blind (users_loop user_ids users).
Proof.
  induction user_ids as [|uid rest IH]; intros users; cbn [users_loop].
  - apply blind_ret.
  - apply blind_bind; [|intros; apply IH].
    apply blind_try_except; [|apply blind_ret].
    apply blind_bind.
    + intros w1 w2 [Ht Hn]. unfold users_by_user_id. rewrite Ht.
      repeat split; assumption.
    + intros [x|]; [|apply blind_ret]. destruct (truthy _); apply blind_ret.
Qed.

Lemma blind_get_users_for_role_definition (role_def_id : string) :
  blind (get_users_for_role_definition role_def_id).
Proof.
  apply blind_bind; [|intros; apply blind_users_loop].
  apply blind_bind; [|intros; apply blind_ret].
  intros w1 w2 [Ht Hn]. unfold get_all_role_assignments. rewrite Ht.
  destruct (role_assignments_get (tenant w2)); repeat split; assumption.
Qed.

Lemma blind_print_members (members : list User.t) : blind (print_members members).
Proof.
  induction members as [|u rest IH]; cbn [print_members].
  - apply blind_ret.
  - apply blind_bind; [apply blind_emit | intros; exact IH].
Qed.

Lemma blind_add_user_to_role_definition (api : Mutations) (r u upn : string) :
  blind (add_user_to_role_definition api r u upn).
Proof.
  intros w1 w2 [Ht Hn]. unfold add_user_to_role_definition. rewrite Ht.
  destruct (create_assignment api r u upn (tenant w2)); repeat split; assumption.
Qed.

Lemma blind_remove_user_from_role_definition (api : Mutations) (r u upn : string) :
  blind (remove_user_from_role_definition api r u upn).
Proof.
  intros w1 w2 [Ht Hn]. unfold remove_user_from_role_definition. rewrite Ht.
  destruct (delete_assignment api r u upn (tenant w2)); repeat split; assumption.
Qed.

Lemma blind_migrate_loop (api : Mutations) (sn tn src tgt : string)
    (members : list User.t) :
  forall affected, blind (migrate_loop api sn tn src tgt members affected).
Proof.
  induction members as [|u rest IH]; intros affected; cbn [migrate_loop].
  - apply blind_ret.
  - apply blind_bind; [apply blind_emit | intros _].
    apply blind_bind; [apply blind_emit | intros _].
    apply blind_bind; [apply blind_add_user_to_role_definition | intros _].
    apply blind_bind; [apply blind_emit | intros _].
    apply blind_bind; [apply blind_remove_user_from_role_definition | intros _].
    apply IH.
Qed.

Lemma blind_save_state (cfg : Config) (direction : Direction)
    (affected : list Json) :
  blind (save_state cfg direction affected).
Proof.
  intros w1 w2 [Ht Hn]. unfold save_state.
  cbn [result_of world_of trace_of fst snd]. rewrite Hn.
  repeat split; assumption.
Qed.

(** [migrate] never looks at the state file. *)
Lemma blind_migrate (cfg : Config) (api : Mutations) (direction : Direction)
    (dry_run : bool) :
  blind (migrate cfg api direction dry_run).
Proof.
  unfold migrate.
  apply blind_bind; [apply blind_emit | intros _].
  apply blind_bind; [apply blind_emit | intros _].
  apply blind_bind; [apply blind_get_role_definition_id_by_name | intros src].
  apply blind_bind; [apply blind_get_role_definition_id_by_name | intros tgt].
  apply blind_bind; [apply blind_get_users_for_role_definition | intros members].
  destruct members as [|u rest]; [apply blind_emit|].
  apply blind_bind; [apply blind_emit | intros _].
  apply blind_bind; [apply blind_print_members | intros _].
  destruct dry_run; [apply blind_emit|].
  apply blind_bind; [apply blind_emit | intros _].
  apply blind_bind; [apply blind_migrate_loop | intros affected].
  apply blind_bind; [apply blind_save_state | intros _].
  apply blind_emit.
Qed.

Lemma erase_direction_record (cfg : Config) (timestamp : string)
    (affected : list Json) :
  erase_direction (state_record cfg timestamp rollback affected)
  = erase_direction (state_record (swap_roles cfg) timestamp forward affected).
Proof. reflexivity. Qed.




(** ** More on the role lookup and on failing listings *)

Lemma first_named_first (name : string) (pre post : list RoleDefinition.t)
    (d : RoleDefinition.t) :
  RoleDefinition.display_name d = Some name ->
  (forall x, In x pre -> RoleDefinition.display_name x <> Some name) ->
  first_named name (pre ++ d :: post) = Some d.
Proof.
  intros Hd Hpre. induction pre as [|x pre IH]; cbn [app first_named].
  - apply opt_eqb_true in Hd. rewrite Hd. reflexivity.
  - destruct (opt_eqb (RoleDefinition.display_name x) name) eqn:E.
    + apply opt_eqb_true in E. exfalso. apply (Hpre x); [left; reflexivity | exact E].
    + apply IH. intros y Hy. apply Hpre. right; exact Hy.
Qed.

(** X1.  When several listed definitions carry the display name asked
    for, [get_role_definition_by_name] returns the one listed first;
    whatever follows it in the listing plays no part. *)
Theorem first_listed_definition_wins
    (name : string) (w : World) (value : option (list RoleDefinition.t))
    (pre post : list RoleDefinition.t) (d : RoleDefinition.t) :
  role_definitions_get (tenant w) = Ok value ->
  value_or_empty value = (pre ++ d :: post)%list ->
  RoleDefinition.display_name d = Some name ->
  (forall x, In x pre -> RoleDefinition.display_name x <> Some name) ->
  get_role_definition_by_name name w = (Ok d, w, [ListRoleDefinitions]) /\
  result_of (get_role_definition_id_by_name name w) = Ok (RoleDefinition.id d).
Proof.
  intros Hv Hl Hd Hpre.
  assert (E : get_role_definition_by_name name w = (Ok d, w, [ListRoleDefinitions])).
  { rewrite get_role_definition_by_name_run, Hv, Hl.
    rewrite (first_named_first name pre post d Hd Hpre). reflexivity. }
  split; [exact E|].
  rewrite get_role_definition_id_by_name_result, E. reflexivity.
Qed.

Lemma first_listed_definition_wins_witness :
  result_of (get_role_definition_id_by_name "Too Many Perms" Scenario.twice_named)
  = Ok "id-first".
Proof.
  refine (proj2 (first_listed_definition_wins "Too Many Perms" Scenario.twice_named
                   _ [RoleDefinition.mk "id-other" (Some "Reader")]
                   [ RoleDefinition.mk "id-second" (Some "Too Many Perms");
                     RoleDefinition.mk "id-to" (Some "Just Right Perms") ]
                   (RoleDefinition.mk "id-first" (Some "Too Many Perms"))
                   eq_refl eq_refl eq_refl _)).
  intros x [<- | []]. discriminate.
Defined.

Lemma get_role_definition_id_by_name_run (name : string) (w : World) :
  get_role_definition_id_by_name name w =
  match result_of (get_role_definition_by_name name w) with
  | Ok d =>
      (Ok (RoleDefinition.id d), w,
       [ListRoleDefinitions;
        Stdout (("Found role definition: '" ++ fmt (RoleDefinition.display_name d)
                 ++ "' → Definition ID: " ++ RoleDefinition.id d) ++ nl)])
  | Err e => (Err e, w, [ListRoleDefinitions])
  end.
Proof.
  unfold get_role_definition_id_by_name, bind, print, emit, ret.
  rewrite get_role_definition_by_name_run.
  destruct (role_definitions_get (tenant w)) as [value | e]; [|reflexivity].
  destruct (first_named name (value_or_empty value)); reflexivity.
Qed.

(** X2.  When the source role is not in the listing, the run ends with
    the [ValueError] that names the source role, whether or not the
    target role exists, and it has made one listing request and nothing
    else: the target role is looked up only after the source role. *)
Theorem source_role_is_resolved_first
    (cfg : Config) (api : Mutations) (direction : Direction) (dry_run : bool)
    (w : World) (value : option (list RoleDefinition.t)) :
  role_definitions_get (tenant w) = Ok value ->
  (forall d, In d (value_or_empty value) ->
             RoleDefinition.display_name d <> Some (source_role cfg direction)) ->
  migrate cfg api direction dry_run w =
  (Err (ValueError (not_found_message (source_role cfg direction))), w,
   (header cfg direction dry_run ++ [ListRoleDefinitions])%list).
Proof.
  intros Hv Hnone.
  assert (Hs : get_role_definition_id_by_name (source_role cfg direction) w
               = (Err (ValueError (not_found_message (source_role cfg direction))),
                  w, [ListRoleDefinitions])).
  { rewrite get_role_definition_id_by_name_run, get_role_definition_by_name_run, Hv.
    apply first_named_none in Hnone. rewrite Hnone. reflexivity. }
  rewrite migrate_run. unfold resolve_plan. rewrite bind_run, Hs. reflexivity.
Qed.

Lemma source_role_is_resolved_first_witness :
  migrate script_config stub forward false Sample.renamed =
  (Err (ValueError "Directory role definition 'Too Many Perms' not found."),
   Sample.renamed,
   (header script_config forward false ++ [ListRoleDefinitions])%list).
Proof.
  refine (source_role_is_resolved_first script_config stub forward false
            Sample.renamed _ eq_refl _).
  intros d Hin. vm_compute in Hin.
  repeat (destruct Hin as [<- | Hin]; [vm_compute; discriminate|]).
  destruct Hin.
Defined.

(** X3.  When the listing of the role definitions raises, the run ends
    with that very exception (not with a [ValueError]) after this one
    request: world unchanged, no second listing, no mutation call, no
    write. *)
Theorem definitions_listing_error_propagates
    (cfg : Config) (api : Mutations) (direction : Direction) (dry_run : bool)
    (w : World) (e : PyExc) :
  role_definitions_get (tenant w) = Err e ->
  migrate cfg api direction dry_run w =
  (Err e, w, (header cfg direction dry_run ++ [ListRoleDefinitions])%list).
Proof.
  intros He.
  assert (Hs : get_role_definition_id_by_name (source_role cfg direction) w
               = (Err e, w, [ListRoleDefinitions])).
  { rewrite get_role_definition_id_by_name_run, get_role_definition_by_name_run, He.
    reflexivity. }
  rewrite migrate_run. unfold resolve_plan. rewrite bind_run, Hs. reflexivity.
Qed.

Lemma definitions_listing_error_propagates_witness :
  result_of (migrate script_config stub forward false Scenario.definitions_unavailable)
  = Err (ODataError "ServiceUnavailable").
Proof.
  exact (f_equal result_of
           (definitions_listing_error_propagates script_config stub forward false
              Scenario.definitions_unavailable _ eq_refl)).
Defined.

(** X4.  When both roles resolve and the listing of the role assignments
    raises, the run ends with that exception: no user is looked up, no
    mutation call is made, nothing is written and the world is as
    before. *)
Theorem assignments_listing_error_propagates
    (cfg : Config) (api : Mutations) (direction : Direction) (dry_run : bool)
    (w : World) (src tgt : string) (e : PyExc) :
  result_of (get_role_definition_id_by_name (source_role cfg direction) w) = Ok src ->
  result_of (get_role_definition_id_by_name (target_role cfg direction) w) = Ok tgt ->
  role_assignments_get (tenant w) = Err e ->
  let x := migrate cfg api direction dry_run w in
  result_of x = Err e /\
  world_of x = w /\
  filter is_read (trace_of x)
  = [ListRoleDefinitions; ListRoleDefinitions; ListRoleAssignments] /\
  mutation_calls (trace_of x) = [] /\
  filter is_write (trace_of x) = [].
Proof.
  intros Hs Ht He. cbv zeta.
  assert (Hu : get_users_for_role_definition src w = (Err e, w, [ListRoleAssignments])).
  { unfold get_users_for_role_definition, get_role_assignments_for_definition,
      bind, get_all_role_assignments. rewrite He. reflexivity. }
  rewrite get_role_definition_id_by_name_result in Hs, Ht.
  assert (Hplan : resolve_plan cfg direction w
                  = (Err e, w,
                     (trace_of (get_role_definition_id_by_name
                                  (source_role cfg direction) w)
                      ++ trace_of (get_role_definition_id_by_name
                                     (target_role cfg direction) w)
                      ++ [ListRoleAssignments])%list)).
  { unfold resolve_plan. rewrite !bind_run.
    rewrite !get_role_definition_id_by_name_run.
    destruct (result_of (get_role_definition_by_name (source_role cfg direction) w))
      as [ds|]; [|discriminate]. injection Hs as <-.
    cbn [result_of world_of trace_of fst snd]. rewrite !bind_run.
    rewrite !get_role_definition_id_by_name_run.
    destruct (result_of (get_role_definition_by_name (target_role cfg direction) w))
      as [dt|]; [|discriminate].
    cbn [result_of world_of trace_of fst snd]. rewrite !bind_run, Hu. reflexivity. }
  destruct (migrate_planning_failed cfg api direction dry_run w e
              (f_equal result_of Hplan)) as (Hr & Hw & Hc & Hwr).
  repeat split; try assumption.
  rewrite migrate_run, Hplan. cbn [result_of world_of trace_of fst snd].
  rewrite !get_role_definition_id_by_name_run.
  destruct (result_of (get_role_definition_by_name (source_role cfg direction) w));
    [|discriminate].
  destruct (result_of (get_role_definition_by_name (target_role cfg direction) w));
    [|discriminate].
  reflexivity.
Qed.

Lemma assignments_listing_error_propagates_witness :
  result_of (migrate script_config stub forward false Scenario.assignments_unavailable)
  = Err (ODataError "ServiceUnavailable").
Proof.
  exact (proj1 (assignments_listing_error_propagates script_config stub forward false
                  Scenario.assignments_unavailable "id-from" "id-to" _
                  eq_refl eq_refl eq_refl)).
Defined.

Lemma users_loop_interrupted (pre : list string) :
  forall (uid : string) (post : list string) (users : list User.t)
         (w : World) (e : PyExc),
    (forall uid' e', In uid' pre ->
                     users_by_user_id_get (tenant w) uid' = Err e' ->
                     is_Exception e' = true) ->
    users_by_user_id_get (tenant w) uid = Err e ->
    is_Exception e = false ->
    users_loop (pre ++ uid :: post) users w =
    (Err e, w, map GetUser (pre ++ [uid])).
Proof.
  induction pre as [|p pre IH]; intros uid post users w e Hpre Hu He;
    cbn [app users_loop map]; unfold bind; rewrite users_step_run.
  - rewrite Hu, He. reflexivity.
  - assert (Hrest : forall uid' e', In uid' pre ->
                      users_by_user_id_get (tenant w) uid' = Err e' ->
                      is_Exception e' = true)
      by (intros uid' e' Hin; apply Hpre; right; exact Hin).
    destruct (users_by_user_id_get (tenant w) p) as [o | e0] eqn:E.
    + rewrite (IH uid post _ w e Hrest Hu He). reflexivity.
    + rewrite (Hpre p e0 (or_introl eq_refl) E).
      rewrite (IH uid post _ w e Hrest Hu He). reflexivity.
Qed.

(** X5.  [except Exception] does not swallow an interruption: when the
    lookup of a holder raises an exception outside the [Exception]
    class, [get_users_for_role_definition] ends with it at that holder;
    the holders listed after it are not looked up and no partial list
    is returned. *)
Theorem lookup_interruption_propagates
    (role_def_id : string) (w : World) (value : option (list RoleAssignment.t))
    (pre post : list string) (uid : string) (e : PyExc) :
  role_assignments_get (tenant w) = Ok value ->
  holders (tenant w) role_def_id = (pre ++ uid :: post)%list ->
  (forall uid' e', In uid' pre ->
                   users_by_user_id_get (tenant w) uid' = Err e' ->
                   is_Exception e' = true) ->
  users_by_user_id_get (tenant w) uid = Err e ->
  is_Exception e = false ->
  get_users_for_role_definition role_def_id w =
  (Err e, w, ListRoleAssignments :: map GetUser (pre ++ [uid])).
Proof.
  intros Hv Hh Hpre Hu He.
  rewrite (get_users_for_role_definition_run _ _ _ Hv), Hh.
  rewrite (users_loop_interrupted pre uid post [] w e Hpre Hu He). reflexivity.
Qed.

Lemma lookup_interruption_propagates_witness :
  get_users_for_role_definition "id-from" Scenario.interrupted_at_B =
  (Err CancelledError, Scenario.interrupted_at_B,
   [ListRoleAssignments; GetUser "A"; GetUser "G"; GetUser "B"]).
Proof.
  refine (lookup_interruption_propagates "id-from" Scenario.interrupted_at_B _
            ["A"; "G"] ["C"] "B" CancelledError eq_refl eq_refl _ eq_refl eq_refl).
  intros uid' e' Hin.
  repeat (destruct Hin as [<- | Hin]; [vm_compute; intros H; inversion H; reflexivity|]).
  destruct Hin.
Defined.

(** ** The order of the requests of a run *)

Lemma users_loop_trace_ok (user_ids : list string) :
  forall users w r,
    result_of (users_loop user_ids users w) = Ok r ->
    trace_of (users_loop user_ids users w) = map GetUser user_ids.
Proof.
  induction user_ids as [|uid rest IH]; intros users w r; [reflexivity|].
  cbn [users_loop map]. rewrite bind_run, users_step_run.
  destruct (users_by_user_id_get (tenant w) uid) as [o | e].
  - cbn [result_of world_of trace_of fst snd]. intros H.
    rewrite (IH _ _ _ H). reflexivity.
  - destruct (is_Exception e); cbn [result_of world_of trace_of fst snd];
      [|discriminate].
    intros H. rewrite (IH _ _ _ H). reflexivity.
Qed.

Lemma lookups_are_reads (user_ids : list string) :
  filter is_read (map GetUser user_ids) = map GetUser user_ids.
Proof.
  induction user_ids as [|h l IH]; [reflexivity | cbn; rewrite IH; reflexivity].
Qed.

Lemma resolve_plan_reads (cfg : Config) (direction : Direction) (w : World)
    (src tgt : string) (members : list User.t) :
  result_of (resolve_plan cfg direction w) = Ok (src, tgt, members) ->
  filter is_read (trace_of (resolve_plan cfg direction w))
  = ([ListRoleDefinitions; ListRoleDefinitions; ListRoleAssignments]
     ++ map GetUser (holders (tenant w) src))%list.
Proof.
  intros Hplan. apply resolve_plan_result in Hplan as (Hs & Ht & Hm).
  rewrite get_role_definition_id_by_name_result in Hs, Ht.
  unfold resolve_plan. rewrite !bind_run, !get_role_definition_id_by_name_run.
  destruct (result_of (get_role_definition_by_name (source_role cfg direction) w))
    as [ds|]; [|discriminate]. injection Hs as <-.
  cbn [result_of world_of trace_of fst snd]. rewrite !bind_run.
  rewrite !get_role_definition_id_by_name_run.
  destruct (result_of (get_role_definition_by_name (target_role cfg direction) w))
    as [dt|]; [|discriminate].
  cbn [result_of world_of trace_of fst snd]. rewrite !bind_run, Hm.
  cbn [result_of world_of trace_of fst snd ret].
  destruct (role_assignments_get (tenant w)) as [value | e] eqn:E.
  - rewrite (get_users_for_role_definition_run _ _ _ E) in Hm |- *.
    cbn [result_of world_of trace_of fst snd] in Hm |- *.
    rewrite (users_loop_trace_ok _ _ _ _ Hm), app_nil_r.
    cbn [app filter is_read]. rewrite lookups_are_reads. reflexivity.
  - unfold get_users_for_role_definition, get_role_assignments_for_definition,
      bind, get_all_role_assignments in Hm. rewrite E in Hm. discriminate.
Qed.

Lemma migrate_loop_no_reads (api : Mutations) (sn tn src tgt : string)
    (members : list User.t) :
  forall affected w,
    filter is_read (trace_of (migrate_loop api sn tn src tgt members affected w)) = [].
Proof.
  induction members as [|user rest IH]; intros affected w; [reflexivity|].
  destruct (migrate_loop_cons api sn tn src tgt user rest affected w)
    as (o1 & o2 & o3 & E).
  cbv zeta in E. rewrite E. clear E.
  destruct (create_assignment api tgt (User.id user) _ (tenant w)) as [tn1 | e1];
    [|reflexivity].
  destruct (delete_assignment api src (User.id user) _ tn1) as [tn2 | e2];
    [|reflexivity].
  cbn [result_of world_of trace_of fst snd]. rewrite filter_app, IH. reflexivity.
Qed.

Lemma listing_no_reads (cfg : Config) (direction : Direction)
    (members : list User.t) :
  filter is_read (listing cfg direction members) = [].
Proof.
  unfold listing. cbn [filter is_read].
  induction members as [|u rest IH]; [reflexivity | exact IH].
Qed.

(** The trace of the execution of a plan, in three parts: what is
    displayed, the calls of the loop, and what follows the loop. *)
Lemma execute_plan_phases (cfg : Config) (api : Mutations) (direction : Direction)
    (dry_run : bool) (plan : string * string * list User.t) (w : World) :
  exists shown calls saved,
    trace_of (execute_plan cfg api direction dry_run plan w)
    = (shown ++ calls ++ saved)%list /\
    forallb harmless shown = true /\ filter is_read shown = [] /\
    filter is_read calls = [] /\ filter is_write calls = [] /\
    filter is_read saved = [] /\ mutation_calls saved = [].
Proof.
  destruct plan as [[src tgt] members].
  destruct members as [|u rest].
  - rewrite execute_plan_empty. eexists _, [], []. cbn [trace_of snd].
    rewrite !app_nil_r. repeat split.
  - assert (Hne : u :: rest <> []) by discriminate. destruct dry_run.
    + rewrite (execute_plan_dry _ _ _ _ _ _ _ Hne). eexists _, [], [].
      cbn [trace_of snd]. rewrite !app_nil_r. split; [reflexivity|].
      rewrite forallb_app, filter_app, listing_harmless, listing_no_reads.
      repeat split.
    + destruct (execute_plan_live cfg api direction src tgt _ w Hne)
        as (o1 & o2 & o3 & E). cbv zeta in E. rewrite E. clear E.
      pose proof (migrate_loop_spec api (source_role cfg direction)
                    (target_role cfg direction) src tgt (u :: rest) [] w) as S.
      cbv zeta in S. destruct S as (_ & _ & Hw & _).
      pose proof (migrate_loop_no_reads api (source_role cfg direction)
                    (target_role cfg direction) src tgt (u :: rest) [] w) as Hr.
      set (l := migrate_loop api _ _ src tgt (u :: rest) [] w) in *.
      destruct (result_of l) as [affected | e]; cbn [trace_of snd].
      * exists (listing cfg direction (u :: rest) ++ [Stdout o1])%list, (trace_of l),
          [WriteState (state_record cfg (now_isoformat w ++ "Z") direction affected);
           Stdout o2; Stdout (o3 affected)].
        rewrite forallb_app, filter_app, listing_harmless, listing_no_reads.
        split; [rewrite <- app_assoc; reflexivity|]. repeat split; assumption.
      * exists (listing cfg direction (u :: rest) ++ [Stdout o1])%list, (trace_of l), [].
        rewrite forallb_app, filter_app, listing_harmless, listing_no_reads.
        split; [rewrite <- app_assoc, app_nil_r; reflexivity|].
        repeat split; assumption.
Qed.

(** X6.  Every run reads first, then mutates, then writes: its trace is
    a planning part without mutation call or write, followed by the
    calls of the loop, among which there is no read request and no
    write, followed by a last part without read request or mutation
    call.  So the plan is complete before the first mutation, and the
    state file is written only after the last one. *)
Theorem reads_then_mutations_then_write
    (cfg : Config) (api : Mutations) (direction : Direction) (dry_run : bool)
    (w : World) :
  exists planning calls saved,
    trace_of (migrate cfg api direction dry_run w)
    = (planning ++ calls ++ saved)%list /\
    mutation_calls planning = [] /\ filter is_write planning = [] /\
    filter is_read calls = [] /\ filter is_write calls = [] /\
    filter is_read saved = [] /\ mutation_calls saved = [].
Proof.
  rewrite migrate_run.
  pose proof (planning_harmless cfg direction dry_run w) as Hh.
  destruct (result_of (resolve_plan cfg direction w)) as [plan | e].
  - destruct (execute_plan_phases cfg api direction dry_run plan w)
      as (shown & calls & saved & E & Hs & _ & Hc1 & Hc2 & Hs1 & Hs2).
    exists ((header cfg direction dry_run ++ trace_of (resolve_plan cfg direction w))
            ++ shown)%list, calls, saved.
    cbn [trace_of snd]. rewrite E.
    split; [rewrite <- !app_assoc; reflexivity|].
    assert (Hall : forallb harmless
                     ((header cfg direction dry_run
                       ++ trace_of (resolve_plan cfg direction w)) ++ shown) = true)
      by (rewrite forallb_app, Hh, Hs; reflexivity).
    repeat split; try assumption;
      [apply harmless_no_mutation | apply harmless_no_write]; exact Hall.
  - eexists _, [], []. cbn [trace_of snd]. rewrite !app_nil_r.
    split; [reflexivity|].
    repeat split; [apply harmless_no_mutation | apply harmless_no_write]; exact Hh.
Qed.

(** X7.  The read requests of a run whose planning succeeds are: the
    listing of the role definitions twice (once for each role name),
    the listing of the role assignments once, and one user lookup for
    each assignment of the source role, in listing order.  Executing
    the plan adds no read request. *)
Theorem read_requests_of_a_run
    (cfg : Config) (api : Mutations) (direction : Direction) (dry_run : bool)
    (w : World) (src tgt : string) (members : list User.t) :
  result_of (resolve_plan cfg direction w) = Ok (src, tgt, members) ->
  filter is_read (trace_of (migrate cfg api direction dry_run w))
  = ([ListRoleDefinitions; ListRoleDefinitions; ListRoleAssignments]
     ++ map GetUser (holders (tenant w) src))%list.
Proof.
  intros Hplan. rewrite migrate_run, Hplan. cbn [trace_of snd].
  destruct (execute_plan_phases cfg api direction dry_run (src, tgt, members) w)
    as (shown & calls & saved & E & _ & Hs & Hc & _ & Hv & _).
  rewrite E, !filter_app, Hs, Hc, Hv, (resolve_plan_reads _ _ _ _ _ _ Hplan).
  rewrite !app_nil_r. reflexivity.
Qed.

Lemma read_requests_of_a_run_witness :
  filter is_read (trace_of (migrate script_config stub forward false
                                    Sample.mixed_holders))
  = [ ListRoleDefinitions; ListRoleDefinitions; ListRoleAssignments;
      GetUser "A"; GetUser "G"; GetUser "N"; GetUser "X"; GetUser "E";
      GetUser "V"; GetUser "C" ].
Proof.
  exact (read_requests_of_a_run script_config stub forward false Sample.mixed_holders
           "id-from" "id-to" [Sample.user "A"; Sample.user "C"] eq_refl).
Defined.

(** ** Dry runs, the fallback name and the script as written *)

Lemma migrate_dry_changes_nothing (cfg : Config) (api : Mutations)
    (direction : Direction) (w : World) :
  let x := migrate cfg api direction true w in
  world_of x = w /\ mutation_calls (trace_of x) = [] /\
  filter is_write (trace_of x) = [].
Proof.
  cbv zeta.
  destruct (result_of (resolve_plan cfg direction w)) as [[[src tgt] members] | e]
    eqn:Hplan.
  - destruct members as [|u rest].
    + destruct (migrate_empty_plan cfg api direction true w src tgt Hplan)
        as (_ & Hw & Hc & Hwr & _). auto.
    + assert (Hne : u :: rest <> []) by discriminate.
      rewrite (migrate_dry_plan cfg api direction w src tgt _ Hplan Hne).
      cbn [world_of trace_of fst snd].
      rewrite planning_calls, planning_writes, listing_calls, listing_writes.
      repeat split.
  - destruct (migrate_planning_failed cfg api direction true w e Hplan)
      as (_ & Hw & Hc & Hwr). auto.
Qed.

(** X8.  With [--dry-run], [main] changes nothing, whatever the other
    flag, the tenant and the state file are: the world after the run is
    the world before it, no mutation call is made and the state file is
    not written, also when the planning raises or a rollback is asked
    for. *)
Theorem dry_run_changes_nothing
    (cfg : Config) (api : Mutations) (args_rollback : bool) (w : World) :
  let x := main cfg api args_rollback true w in
  world_of x = w /\
  mutation_calls (trace_of x) = [] /\
  filter is_write (trace_of x) = [].
Proof.
  cbv zeta.
  destruct (migrate_dry_changes_nothing cfg api
              (if args_rollback then rollback else forward) w) as (Hw & Hc & Hwr).
  destruct args_rollback; [|auto].
  unfold main, bind, state_file_exists, print, emit.
  destruct (state_file w); [|repeat split].
  destruct (migrate cfg api rollback true w) as [[r w'] t].
  cbn [world_of trace_of fst snd] in *. auto.
Qed.




Lemma set_tenant_same (w : World) : set_tenant (tenant w) w = w.
Proof. destruct w; reflexivity. Qed.

Lemma migrate_loop_stub (sn tn src tgt : string) (members : list User.t) :
  forall affected w,
    let x := migrate_loop stub sn tn src tgt members affected w in
    result_of x = Ok (affected ++ map affected_entry members)%list /\
    world_of x = w.
Proof.
  induction members as [|user rest IH]; intros affected w.
  - cbn. rewrite app_nil_r. auto.
  - destruct (migrate_loop_cons stub sn tn src tgt user rest affected w)
      as (o1 & o2 & o3 & E).
    cbv zeta in E |- *. rewrite E. clear E.
    cbn [stub create_assignment delete_assignment].
    rewrite !set_tenant_same.
    cbn [result_of world_of trace_of fst snd].
    destruct (IH (affected ++ [affected_entry user])%list w) as [Hr Hw].
    rewrite Hr, Hw, <- app_assoc. auto.
Qed.

Lemma blind_resolve_plan (cfg : Config) (direction : Direction) :
  blind (resolve_plan cfg direction).
Proof.
  apply blind_bind; [apply blind_get_role_definition_id_by_name | intros s].
  apply blind_bind; [apply blind_get_role_definition_id_by_name | intros t].
  apply blind_bind; [apply blind_get_users_for_role_definition | intros m].
  apply blind_ret.
Qed.

(** X10.  With the two mutation helpers as the script has them (no
    request is sent), a live run of a non-empty plan returns normally
    and records every user of the plan as affected, yet the tenant is
    exactly as before; planning again right after the run finds the
    same plan, not an empty one. *)
Theorem live_run_of_the_script_leaves_the_tenant
    (cfg : Config) (direction : Direction) (w : World)
    (src tgt : string) (members : list User.t) :
  result_of (resolve_plan cfg direction w) = Ok (src, tgt, members) ->
  members <> [] ->
  let x := migrate cfg stub direction false w in
  result_of x = Ok tt /\
  tenant (world_of x) = tenant w /\
  state_file (world_of x)
  = Some (state_record cfg (now_isoformat w ++ "Z") direction
                       (map affected_entry members)) /\
  result_of (resolve_plan cfg direction (world_of x)) = Ok (src, tgt, members).
Proof.
  intros Hplan Hne. cbv zeta.
  destruct (migrate_live_plan cfg stub direction w src tgt members Hplan Hne)
    as (_ & _ & Hr). cbv zeta in Hr.
  destruct (migrate_loop_stub (source_role cfg direction) (target_role cfg direction)
              src tgt members [] w) as [Hl Hw].
  rewrite Hl, Hw in Hr. destruct Hr as (Hres & Hworld & _).
  rewrite Hres, Hworld. cbn [tenant state_file set_state_file app].
  repeat split.
  assert (Ha : agree (set_state_file
                        (state_record cfg (now_isoformat w ++ "Z") direction
                                      (map affected_entry members)) w) w)
    by (split; reflexivity).
  destruct (blind_resolve_plan cfg direction _ _ Ha) as (-> & _). exact Hplan.
Qed.

Lemma live_run_of_the_script_leaves_the_tenant_witness :
  let x := migrate script_config stub forward false Sample.three_holders in
  result_of x = Ok tt /\ tenant (world_of x) = tenant Sample.three_holders.
Proof.
  assert (Hne : [Sample.user "A"; Sample.user "B"; Sample.user "C"] <> [])
    by discriminate.
  destruct (live_run_of_the_script_leaves_the_tenant script_config forward
              Sample.three_holders "id-from" "id-to" _ eq_refl Hne)
    as (Hr & Ht & _).
  split; [exact Hr | exact Ht].
Defined.

(** X11.  A forward run never looks at the state file: with or without
    a file, and whatever the file holds, [main] without [--rollback]
    returns the same result, prints the same and makes the same calls,
    and leaves the same tenant. *)
Theorem forward_run_ignores_the_state_file
    (cfg : Config) (api : Mutations) (args_dry_run : bool) (w : World)
    (file : option Json) :
  let a := main cfg api false args_dry_run w in
  let b := main cfg api false args_dry_run (with_state_file file w) in
  result_of a = result_of b /\
  trace_of a = trace_of b /\
  tenant (world_of a) = tenant (world_of b).
Proof.
  cbv zeta. unfold main.
  assert (Ha : agree w (with_state_file file w)) by (split; reflexivity).
  destruct (blind_migrate cfg api forward args_dry_run _ _ Ha) as (Hr & Ht & Hw & _).
  auto.
Qed.

Lemma execute_plan_live_end (cfg : Config) (api : Mutations) (direction : Direction)
    (src tgt : string) (members : list User.t) (w : World) (affected : list Json) :
  members <> [] ->
  result_of (migrate_loop api (source_role cfg direction) (target_role cfg direction)
                          src tgt members [] w) = Ok affected ->
  exists pre,
    trace_of (execute_plan cfg api direction false (src, tgt, members) w)
    = (pre ++ [Stdout ((nl ++ "Migration complete! " ++ str_of_nat (length affected)
                        ++ " user(s) updated.") ++ nl)])%list.
Proof.
  intros Hne Hl. destruct members as [|u rest]; [contradiction|].
  unfold execute_plan, bind, print, emit. rewrite print_members_run.
  destruct (migrate_loop api _ _ src tgt (u :: rest) [] w) as [[r w'] t].
  cbn [result_of fst] in Hl. subst r. unfold save_state.
  cbn [trace_of snd app].
  eexists (_ :: map member_line (u :: rest) ++ _ :: t ++ [_; _])%list.
  cbn [app]. rewrite <- app_assoc. cbn [app]. rewrite <- app_assoc. reflexivity.
Qed.

(** X12.  A live run that returns has processed the whole plan: its
    last output line reports as many updated users as the plan has
    members, and the record it wrote lists as many. *)
Theorem live_run_reports_the_plan_size
    (cfg : Config) (api : Mutations) (direction : Direction) (w : World)
    (src tgt : string) (members : list User.t) :
  result_of (resolve_plan cfg direction w) = Ok (src, tgt, members) ->
  members <> [] ->
  let x := migrate cfg api direction false w in
  result_of x = Ok tt ->
  (exists pre,
      trace_of x
      = (pre ++ [Stdout ((nl ++ "Migration complete! " ++ str_of_nat (length members)
                          ++ " user(s) updated.") ++ nl)])%list) /\
  option_map (fun record => length (recorded_user_ids record))
             (state_file (world_of x))
  = Some (length members).
Proof.
  intros Hplan Hne. cbv zeta. intros Hok.
  destruct (migrate_live_plan cfg api direction w src tgt members Hplan Hne)
    as (_ & _ & Hr). cbv zeta in Hr.
  pose proof (migrate_loop_spec api (source_role cfg direction)
                (target_role cfg direction) src tgt members [] w) as S.
  cbv zeta in S. destruct S as (_ & _ & _ & _ & Hl).
  destruct (result_of (migrate_loop api _ _ src tgt members [] w))
    as [affected | e] eqn:El.
  - destruct Hl as [Ha _]. cbn [app] in Ha. destruct Hr as (_ & Hw & _). split.
    + destruct (execute_plan_live_end cfg api direction src tgt members w affected
                  Hne El) as (pre & E).
      rewrite migrate_run, Hplan. cbn [trace_of snd]. rewrite E.
      exists (header cfg direction false ++ trace_of (resolve_plan cfg direction w)
              ++ pre)%list.
      rewrite Ha, length_map, <- !app_assoc. reflexivity.
    + rewrite Hw, Ha. cbn [state_file set_state_file option_map].
      f_equal. unfold recorded_user_ids, state_record.
      cbn [field find fst snd String.eqb Ascii.eqb Bool.eqb].
      clear. induction members as [|u rest IH]; [reflexivity|].
      cbn [map flat_map affected_entry field find fst snd String.eqb Ascii.eqb
           Bool.eqb app length]. rewrite IH. reflexivity.
  - destruct Hr as (Hres & _). rewrite Hres in Hok. discriminate.
Qed.

Lemma live_run_reports_the_plan_size_witness :
  option_map (fun record => length (recorded_user_ids record))
             (state_file (world_of (migrate script_config stub forward false
                                            Sample.three_holders)))
  = Some 3.
Proof.
  assert (Hne : [Sample.user "A"; Sample.user "B"; Sample.user "C"] <> [])
    by discriminate.
  exact (proj2 (live_run_reports_the_plan_size script_config stub forward
                  Sample.three_holders "id-from" "id-to" _ eq_refl Hne eq_refl)).
Defined.

(** * The report script *)

(** ** [model_to_dict] *)

(** Induction on Python objects, with the hypothesis available for
    every item of a list, a tuple, a dict or an object. *)
Lemma PyObj_induction (P : Iam.PyObj -> Prop) :
  P Iam.PNone ->
  (forall s, P (Iam.PStr s)) ->
  (forall n, P (Iam.PInt n)) ->
  (forall r, P (Iam.PFloat r)) ->
  (forall b, P (Iam.PBool b)) ->
  (forall d, P (Iam.PDatetime d)) ->
  (forall items, Forall P items -> P (Iam.PList items)) ->
  (forall items, Forall P items -> P (Iam.PTuple items)) ->
  (forall items, Forall (fun kv => P (snd kv)) items -> P (Iam.PDict items)) ->
  (forall attrs ad, Forall (fun kv => P (snd kv)) attrs -> P (Iam.PModel attrs ad)) ->
  (forall attrs, Forall (fun kv => P (snd kv)) attrs -> P (Iam.PObject attrs)) ->
  (forall s, P (Iam.POther s)) ->
  forall obj, P obj.
Proof.
  intros HN HS HI HF HB HD HL HT HDi HM HO HOt.
  fix IH 1. intros [ | s | n | r | b | d | items | items | items | attrs ad | attrs | s].
  - exact HN.
  - apply HS.
  - apply HI.
  - apply HF.
  - apply HB.
  - apply HD.
  - apply HL. induction items as [|x l IHl]; constructor; [apply IH | exact IHl].
  - apply HT. induction items as [|x l IHl]; constructor; [apply IH | exact IHl].
  - apply HDi. induction items as [|[k x] l IHl]; constructor; [apply IH | exact IHl].
  - apply HM. induction attrs as [|[k x] l IHl]; constructor; [apply IH | exact IHl].
  - apply HO. induction attrs as [|[k x] l IHl]; constructor; [apply IH | exact IHl].
  - apply HOt.
Qed.

(** A plain value is returned as it is. *)
Lemma model_to_dict_plain (obj : Iam.PyObj) :
  Iam.plain obj = true -> Iam.model_to_dict obj = obj.
Proof.
  induction obj using PyObj_induction; cbn [Iam.plain Iam.model_to_dict];
    try reflexivity; try discriminate.
  - intros Hp. f_equal.
    induction items as [|x l IHl]; [reflexivity|].
    cbn [forallb map] in *. apply andb_true_iff in Hp as [Hx Hl].
    inversion H as [|? ? Px Pl]; subst. rewrite (Px Hx), (IHl Pl Hl). reflexivity.
  - intros Hp. f_equal.
    induction items as [|[k x] l IHl]; [reflexivity|].
    cbn [forallb map] in *. apply andb_true_iff in Hp as [Hx Hl].
    inversion H as [|? ? Px Pl]; subst. cbn [snd] in Px.
    rewrite (Px Hx), (IHl Pl Hl). reflexivity.
Qed.

Lemma dict_set_plain (d : Iam.Dict) (k : string) (v : Iam.PyObj) :
  forallb (fun '(_, x) => Iam.plain x) d = true ->
  Iam.plain v = true ->
  forallb (fun '(_, x) => Iam.plain x) (Iam.dict_set d k v) = true.
Proof.
  intros Hd Hv. induction d as [|[k' v'] rest IH]; cbn [Iam.dict_set forallb].
  - rewrite Hv. reflexivity.
  - cbn [forallb] in Hd. apply andb_true_iff in Hd as [Hv' Hrest].
    destruct (String.eqb k' k); cbn [forallb].
    + rewrite Hv, Hrest. reflexivity.
    + rewrite Hv', (IH Hrest). reflexivity.
Qed.

Lemma dict_update_plain (other : Iam.Dict) :
  forall d,
    forallb (fun '(_, x) => Iam.plain x) d = true ->
    forallb (fun '(_, x) => Iam.plain x) other = true ->
    forallb (fun '(_, x) => Iam.plain x) (Iam.dict_update d other) = true.
Proof.
  induction other as [|[k v] rest IH]; intros d Hd Ho; [exact Hd|].
  cbn [forallb] in Ho. apply andb_true_iff in Ho as [Hv Hrest].
  unfold Iam.dict_update. cbn [fold_left fst snd].
  apply IH; [apply dict_set_plain; assumption | exact Hrest].
Qed.

Lemma public_attrs_plain (attrs : list (string * Iam.PyObj)) :
  Forall (fun kv => Iam.tidy (snd kv) = true ->
                    Iam.plain (Iam.model_to_dict (snd kv)) = true) attrs ->
  forallb (fun '(k, v) => Iam.is_private k || Iam.tidy v) attrs = true ->
  forallb (fun '(_, x) => Iam.plain x)
          (flat_map (fun '(k, v) => if Iam.is_private k then []
                                    else [(k, Iam.model_to_dict v)]) attrs) = true.
Proof.
  intros H Ht. induction attrs as [|[k v] rest IH]; [reflexivity|].
  cbn [forallb flat_map] in *. apply andb_true_iff in Ht as [Hkv Hrest].
  inversion H as [|? ? Pv Prest]; subst. cbn [snd] in Pv.
  destruct (Iam.is_private k); cbn [app forallb orb] in *.
  - apply IH; assumption.
  - rewrite (Pv Hkv), (IH Prest Hrest). reflexivity.
Qed.

Lemma model_to_dict_tidy (obj : Iam.PyObj) :
  Iam.tidy obj = true -> Iam.plain (Iam.model_to_dict obj) = true.
Proof.
  induction obj using PyObj_induction; cbn [Iam.tidy Iam.model_to_dict Iam.plain];
    try reflexivity.
  - intros Ht. induction items as [|x l IHl]; [reflexivity|].
    cbn [forallb map] in *. apply andb_true_iff in Ht as [Hx Hl].
    inversion H as [|? ? Px Pl]; subst. rewrite (Px Hx), (IHl Pl Hl). reflexivity.
  - intros Ht. induction items as [|x l IHl]; [reflexivity|].
    cbn [forallb map] in *. apply andb_true_iff in Ht as [Hx Hl].
    inversion H as [|? ? Px Pl]; subst. rewrite (Px Hx), (IHl Pl Hl). reflexivity.
  - intros Ht. induction items as [|[k x] l IHl]; [reflexivity|].
    cbn [forallb map] in *. apply andb_true_iff in Ht as [Hx Hl].
    inversion H as [|? ? Px Pl]; subst. cbn [snd] in Px.
    rewrite (Px Hx), (IHl Pl Hl). reflexivity.
  - intros Ht. apply andb_true_iff in Ht as [Ha Hd].
    pose proof (public_attrs_plain attrs H Ha) as Hdata.
    destruct ad as [|kv ad]; cbn [Iam.plain]; [exact Hdata|].
    apply dict_update_plain; assumption.
  - intros Ht. apply public_attrs_plain; assumption.
Qed.

(** X13.  On an object whose [additional_data] dicts hold plain values
    only, [model_to_dict] returns a plain value (nothing but [None],
    strings, numbers, booleans, lists and dicts), and converting the
    result again changes nothing. *)
Theorem model_to_dict_is_idempotent (obj : Iam.PyObj) :
  Iam.tidy obj = true ->
  Iam.plain (Iam.model_to_dict obj) = true /\
  Iam.model_to_dict (Iam.model_to_dict obj) = Iam.model_to_dict obj.
Proof.
  intros Ht. pose proof (model_to_dict_tidy obj Ht) as Hp.
  split; [exact Hp | apply model_to_dict_plain; exact Hp].
Qed.

Lemma model_to_dict_is_idempotent_witness :
  let policy :=
    Iam.PModel [ ("_backing_store", Iam.POther "<store>");
                 ("display_name", Iam.PStr "Require MFA");
                 ("created_date_time", Iam.PDatetime "2025-01-15T10:30:00");
                 ("conditions", Iam.PObject [("users", Iam.PTuple [Iam.PStr "All"])]) ]
               [ ("@odata.context", Iam.PStr "policies") ] in
  Iam.model_to_dict (Iam.model_to_dict policy) = Iam.model_to_dict policy.
Proof.
  intros policy. exact (proj2 (model_to_dict_is_idempotent policy eq_refl)).
Defined.

Lemma dict_get_set (d : Iam.Dict) (k k' : string) (v : Iam.PyObj) :
  Iam.dict_get k (Iam.dict_set d k' v)
  = if String.eqb k' k then Some v else Iam.dict_get k d.
Proof.
  induction d as [|[k0 v0] rest IH]; cbn [Iam.dict_set Iam.dict_get].
  - reflexivity.
  - destruct (String.eqb k0 k') eqn:E0; cbn [Iam.dict_get].
    + apply String.eqb_eq in E0. subst k0.
      destruct (String.eqb k' k); reflexivity.
    + destruct (String.eqb k0 k) eqn:E1; [|exact IH].
      apply String.eqb_eq in E1. subst k0.
      rewrite String.eqb_sym, E0. reflexivity.
Qed.

Lemma dict_get_absent (k : string) (d : Iam.Dict) :
  ~ In k (map fst d) -> Iam.dict_get k d = None.
Proof.
  induction d as [|[k0 v0] rest IH]; cbn [Iam.dict_get map fst In]; [reflexivity|].
  intros H. destruct (String.eqb k0 k) eqn:E.
  - apply String.eqb_eq in E. exfalso. apply H. left. exact E.
  - apply IH. intros Hin. apply H. right. exact Hin.
Qed.

Lemma dict_get_update (other : Iam.Dict) :
  forall (d : Iam.Dict) (k : string),
    NoDup (map fst other) ->
    Iam.dict_get k (Iam.dict_update d other)
    = match Iam.dict_get k other with
      | Some v => Some v
      | None => Iam.dict_get k d
      end.
Proof.
  induction other as [|[k1 v1] rest IH]; intros d k Hnd; [reflexivity|].
  unfold Iam.dict_update. cbn [fold_left fst snd map] in *.
  inversion Hnd as [|? ? Hnotin Hrest]; subst.
  fold (Iam.dict_update (Iam.dict_set d k1 v1) rest).
  rewrite (IH _ _ Hrest), dict_get_set. cbn [Iam.dict_get].
  destruct (String.eqb k1 k) eqn:E; [|reflexivity].
  apply String.eqb_eq in E. subst k1. rewrite (dict_get_absent _ _ Hnotin). reflexivity.
Qed.

Lemma dict_get_public (attrs : list (string * Iam.PyObj)) (k : string) :
  Iam.dict_get k
    (flat_map (fun '(k0, v) => if Iam.is_private k0 then []
                               else [(k0, Iam.model_to_dict v)]) attrs)
  = if Iam.is_private k then None
    else option_map Iam.model_to_dict (Iam.dict_get k attrs).
Proof.
  induction attrs as [|[k0 v0] rest IH]; cbn [flat_map Iam.dict_get].
  - destruct (Iam.is_private k); reflexivity.
  - destruct (Iam.is_private k0) eqn:Ep; cbn [app Iam.dict_get].
    + rewrite IH. destruct (String.eqb k0 k) eqn:E; [|reflexivity].
      apply String.eqb_eq in E. subst k0. rewrite Ep. reflexivity.
    + destruct (String.eqb k0 k) eqn:E; [|exact IH].
      apply String.eqb_eq in E. subst k0. rewrite Ep. reflexivity.
Qed.

(** X14.  For an object with [additional_data], the result is a dict in
    which every key of [additional_data] holds the value found there,
    as it is (not converted), also when an attribute has the same name;
    any other key holds the converted attribute of that name when the
    name does not start with an underscore, and is absent otherwise. *)
Theorem additional_data_overrides_attributes
    (attrs additional_data : list (string * Iam.PyObj)) :
  NoDup (map fst additional_data) ->
  exists data,
    Iam.model_to_dict (Iam.PModel attrs additional_data) = Iam.PDict data /\
    forall k,
      Iam.dict_get k data
      = match Iam.dict_get k additional_data with
        | Some v => Some v
        | None => if Iam.is_private k then None
                  else option_map Iam.model_to_dict (Iam.dict_get k attrs)
        end.
Proof.
  intros Hnd. cbn [Iam.model_to_dict].
  destruct additional_data as [|kv ad].
  - eexists. split; [reflexivity|]. intros k. apply dict_get_public.
  - eexists. split; [reflexivity|]. intros k.
    rewrite (dict_get_update _ _ _ Hnd), dict_get_public. reflexivity.
Qed.

Lemma additional_data_overrides_attributes_witness :
  exists data,
    Iam.model_to_dict
      (Iam.PModel [ ("id", Iam.PStr "42");
                    ("created", Iam.PDatetime "2025-01-15T10:30:00") ]
                  [ ("created", Iam.PDatetime "2024-12-31T00:00:00") ])
    = Iam.PDict data /\
    forall k,
      Iam.dict_get k data
      = match Iam.dict_get k [ ("created", Iam.PDatetime "2024-12-31T00:00:00") ] with
        | Some v => Some v
        | None => if Iam.is_private k then None
                  else option_map Iam.model_to_dict
                         (Iam.dict_get k [ ("id", Iam.PStr "42");
                                           ("created",
                                            Iam.PDatetime "2025-01-15T10:30:00") ])
        end.
Proof.
  apply additional_data_overrides_attributes.
  constructor; [intros [] | constructor].
Defined.

Lemma public_attrs_keys (attrs : list (string * Iam.PyObj)) :
  forallb (fun kv => negb (Iam.is_private (fst kv)))
          (flat_map (fun '(k, v) => if Iam.is_private k then []
                                    else [(k, Iam.model_to_dict v)]) attrs) = true.
Proof.
  induction attrs as [|[k0 v0] rest IH]; cbn [flat_map forallb]; [reflexivity|].
  destruct (Iam.is_private k0) eqn:E; cbn [app forallb fst]; [exact IH|].
  rewrite E, IH. reflexivity.
Qed.

(** X15.  For an object without [additional_data], the result is a dict
    that holds, for each attribute whose name does not start with an
    underscore, the converted value of the attribute, and no key that
    starts with an underscore; a tuple comes out as a list and a
    datetime as its isoformat followed by "Z". *)
Theorem private_attributes_are_dropped
    (attrs : list (string * Iam.PyObj)) (k : string) :
  exists data,
    Iam.model_to_dict (Iam.PObject attrs) = Iam.PDict data /\
    Iam.dict_get k data
    = (if Iam.is_private k then None
       else option_map Iam.model_to_dict (Iam.dict_get k attrs)) /\
    forallb (fun kv => negb (Iam.is_private (fst kv))) data = true /\
    (forall items, Iam.model_to_dict (Iam.PTuple items)
                   = Iam.PList (map Iam.model_to_dict items)) /\
    (forall d, Iam.model_to_dict (Iam.PDatetime d) = Iam.PStr (d ++ "Z")).
Proof.
  exists (flat_map (fun '(k0, v) => if Iam.is_private k0 then []
                                    else [(k0, Iam.model_to_dict v)]) attrs).
  split; [reflexivity|]. split; [apply dict_get_public|].
  split; [apply public_attrs_keys | split; reflexivity].
Qed.

(** ** [get_users_and_roles] *)

Lemma lookup_get_setdefault_append (d : Iam.RoleLookup) (k uid : string)
    (v : option string) :
  Iam.lookup_get uid (Iam.setdefault_append d k v)
  = if String.eqb k uid then (Iam.lookup_get uid d ++ [v])%list
    else Iam.lookup_get uid d.
Proof.
  induction d as [|[k' l] rest IH]; cbn [Iam.setdefault_append Iam.lookup_get].
  - destruct (String.eqb k uid); reflexivity.
  - destruct (String.eqb k' k) eqn:E; cbn [Iam.lookup_get].
    + apply String.eqb_eq in E. subst k'.
      destruct (String.eqb k uid); reflexivity.
    + destruct (String.eqb k' uid) eqn:E1; [|exact IH].
      apply String.eqb_eq in E1. subst k'.
      rewrite String.eqb_sym, E. reflexivity.
Qed.

Lemma lookup_get_add_members (role : Iam.DirectoryRole.t)
    (members : list Iam.DirectoryObject.t) (uid : string) :
  forall d,
    Iam.lookup_get uid (Iam.add_members role members d)
    = (Iam.lookup_get uid d
       ++ flat_map (fun member =>
                      if (Iam.is_user member
                          && String.eqb (Iam.DirectoryObject.id member) uid)%bool
                      then [Iam.DirectoryRole.display_name role] else [])
                   members)%list.
Proof.
  induction members as [|m rest IH]; intros d; unfold Iam.add_members in *;
    cbn [fold_left flat_map].
  - rewrite app_nil_r. reflexivity.
  - rewrite IH. destruct (Iam.is_user m); cbn [andb].
    + rewrite lookup_get_setdefault_append.
      destruct (String.eqb (Iam.DirectoryObject.id m) uid);
        [rewrite <- app_assoc|]; reflexivity.
    + reflexivity.
Qed.

Lemma roles_loop_lookup (c : Iam.Client) (roles : list Iam.DirectoryRole.t)
    (uid : string) :
  forall d role_lookup,
    Iam.roles_loop c roles d = Ok role_lookup ->
    Iam.lookup_get uid role_lookup
    = (Iam.lookup_get uid d ++ Iam.memberships c roles uid)%list.
Proof.
  induction roles as [|role rest IH]; intros d role_lookup;
    cbn [Iam.roles_loop]; unfold Iam.memberships in *; cbn [flat_map].
  - intros H; injection H as <-. rewrite app_nil_r. reflexivity.
  - destruct (Iam.members_get c (Iam.DirectoryRole.id role)) as [mv | e];
      [|discriminate].
    intros H. rewrite (IH _ _ H), lookup_get_add_members, <- app_assoc. reflexivity.
Qed.

Lemma insert_by_perm {A : Type} (key : A -> string) (x : A) (l : list A) :
  Permutation (Iam.insert_by key x l) (x :: l).
Proof.
  induction l as [|y rest IH]; cbn [Iam.insert_by]; [apply Permutation_refl|].
  destruct (String.leb (key x) (key y)); [apply Permutation_refl|].
  apply perm_trans with (y :: x :: rest);
    [apply perm_skip; exact IH | apply perm_swap].
Qed.

Lemma sorted_perm {A : Type} (key : A -> string) (l : list A) :
  Permutation (Iam.sorted key l) l.
Proof.
  induction l as [|x rest IH]; [apply Permutation_refl|].
  unfold Iam.sorted in *. cbn [fold_right].
  apply perm_trans with (x :: fold_right (Iam.insert_by key) [] rest);
    [apply insert_by_perm | apply perm_skip; exact IH].
Qed.

Lemma insert_by_sorted {A : Type} (key : A -> string) (x : A) (l : list A) :
  Sorted (fun a b => String.leb (key a) (key b) = true) l ->
  Sorted (fun a b => String.leb (key a) (key b) = true) (Iam.insert_by key x l).
Proof.
  induction l as [|y rest IH]; intros Hs; cbn [Iam.insert_by].
  - repeat constructor.
  - destruct (String.leb (key x) (key y)) eqn:E.
    + constructor; [exact Hs | constructor; exact E].
    + inversion Hs as [|? ? Hrest Hhd]; subst.
      constructor; [apply IH; exact Hrest|].
      assert (Hyx : String.leb (key y) (key x) = true)
        by (destruct (String.leb_total (key x) (key y)); congruence).
      destruct rest as [|z rest']; cbn [Iam.insert_by].
      * constructor; exact Hyx.
      * destruct (String.leb (key x) (key z)); constructor;
          [exact Hyx | inversion Hhd; assumption].
Qed.

Lemma sorted_is_sorted {A : Type} (key : A -> string) (l : list A) :
  Sorted (fun a b => String.leb (key a) (key b) = true) (Iam.sorted key l).
Proof.
  induction l as [|x rest IH]; [constructor|].
  unfold Iam.sorted in *. cbn [fold_right]. apply insert_by_sorted. exact IH.
Qed.

Lemma leb_refl (s : string) : String.leb s s = true.
Proof. destruct (String.leb_total s s); assumption. Qed.

Lemma insert_by_stable {A : Type} (key : A -> string) (k : string) (x : A)
    (l : list A) :
  filter (fun a => String.eqb (key a) k) (Iam.insert_by key x l)
  = filter (fun a => String.eqb (key a) k) (x :: l).
Proof.
  induction l as [|y rest IH]; cbn [Iam.insert_by]; [reflexivity|].
  destruct (String.leb (key x) (key y)) eqn:E; [reflexivity|].
  cbn [filter] in *. rewrite IH.
  destruct (String.eqb (key x) k) eqn:Ex; [|reflexivity].
  destruct (String.eqb (key y) k) eqn:Ey; [|reflexivity].
  apply String.eqb_eq in Ex, Ey. rewrite Ex, Ey, leb_refl in E. discriminate.
Qed.

Lemma sorted_stable {A : Type} (key : A -> string) (k : string) (l : list A) :
  filter (fun a => String.eqb (key a) k) (Iam.sorted key l)
  = filter (fun a => String.eqb (key a) k) l.
Proof.
  induction l as [|x rest IH]; [reflexivity|].
  unfold Iam.sorted in *. cbn [fold_right]. rewrite insert_by_stable.
  cbn [filter]. rewrite IH. reflexivity.
Qed.

Lemma row_key_is_display_name (x : Iam.Row.t) : Iam.row_key x = Iam.Row.displayName x.
Proof. unfold Iam.row_key. destruct (Iam.Row.displayName x); reflexivity. Qed.

Lemma get_users_and_roles_rows (c : Iam.Client) (rows : list Iam.Row.t)
    (users_value : option (list Iam.GraphUser.t))
    (roles_value : option (list Iam.DirectoryRole.t)) :
  Iam.users_get c = Ok users_value ->
  Iam.directory_roles_get c = Ok roles_value ->
  Iam.get_users_and_roles c = Ok rows ->
  exists role_lookup,
    Iam.roles_loop c (value_or_empty roles_value) [] = Ok role_lookup /\
    rows = Iam.sorted Iam.row_key
             (map (Iam.user_row role_lookup) (value_or_empty users_value)).
Proof.
  intros Hu Hr. unfold Iam.get_users_and_roles. rewrite Hu, Hr.
  destruct (Iam.roles_loop c (value_or_empty roles_value) []) as [role_lookup | e];
    [|discriminate].
  intros H; injection H as <-. exists role_lookup. auto.
Qed.

Lemma directory_roles_of_a_row_helper
    (c : Iam.Client) (rows : list Iam.Row.t)
    (users_value : option (list Iam.GraphUser.t))
    (roles_value : option (list Iam.DirectoryRole.t)) (row : Iam.Row.t) :
  Iam.users_get c = Ok users_value ->
  Iam.directory_roles_get c = Ok roles_value ->
  Iam.get_users_and_roles c = Ok rows ->
  In row rows ->
  Iam.Row.directoryRoles row
  = Iam.memberships c (value_or_empty roles_value) (Iam.Row.id row).
Proof.
  intros Hu Hr Hrows Hin.
  destruct (get_users_and_roles_rows c rows _ _ Hu Hr Hrows) as (lk & Hl & ->).
  apply (Permutation_in _ (sorted_perm _ _)) in Hin.
  apply in_map_iff in Hin as (user & <- & _).
  cbn [Iam.user_row Iam.Row.directoryRoles Iam.Row.id].
  rewrite (roles_loop_lookup c _ (Iam.GraphUser.id user) [] lk Hl). reflexivity.
Qed.

(** X16.  In the rows returned by [get_users_and_roles], the roles of a
    row are the display names of the roles that list the row's user id
    as a member of user type, in the order of the role listing, once for
    each such listing; members of other types (groups, service
    principals) add nothing, and a user no role lists has no roles. *)
Theorem directory_roles_of_a_row
    (c : Iam.Client) (rows : list Iam.Row.t)
    (users_value : option (list Iam.GraphUser.t))
    (roles_value : option (list Iam.DirectoryRole.t)) (row : Iam.Row.t) :
  Iam.users_get c = Ok users_value ->
  Iam.directory_roles_get c = Ok roles_value ->
  Iam.get_users_and_roles c = Ok rows ->
  In row rows ->
  Iam.Row.directoryRoles row
  = Iam.memberships c (value_or_empty roles_value) (Iam.Row.id row).
Proof.
  intros Hu Hr Hrows Hin.
  destruct (get_users_and_roles_rows c rows _ _ Hu Hr Hrows) as (lk & Hl & ->).
  apply (Permutation_in _ (sorted_perm _ _)) in Hin.
  apply in_map_iff in Hin as (user & <- & _).
  cbn [Iam.user_row Iam.Row.directoryRoles Iam.Row.id].
  rewrite (roles_loop_lookup c _ (Iam.GraphUser.id user) [] lk Hl). reflexivity.
Qed.

(** X17.  The rows returned by [get_users_and_roles] are one row for
    each listed user, sorted by display name (a missing name counts as
    the empty string): each row's name is at most the next row's, and
    users with the same name keep the order of the user listing. *)
Theorem rows_are_sorted_by_display_name
    (c : Iam.Client) (rows : list Iam.Row.t)
    (users_value : option (list Iam.GraphUser.t))
    (roles_value : option (list Iam.DirectoryRole.t)) :
  Iam.users_get c = Ok users_value ->
  Iam.directory_roles_get c = Ok roles_value ->
  Iam.get_users_and_roles c = Ok rows ->
  let users := value_or_empty users_value in
  length rows = length users /\
  Permutation (map Iam.Row.id rows) (map Iam.GraphUser.id users) /\
  Sorted (fun a b => String.leb (Iam.Row.displayName a) (Iam.Row.displayName b) = true)
         rows /\
  forall name,
    map Iam.Row.id
        (filter (fun r => String.eqb (Iam.Row.displayName r) name) rows)
    = map Iam.GraphUser.id
          (filter (fun u => String.eqb (or_else (Iam.GraphUser.display_name u) "") name)
                  users).
Proof.
  intros Hu Hr Hrows. cbv zeta.
  destruct (get_users_and_roles_rows c rows _ _ Hu Hr Hrows) as (lk & _ & ->).
  set (users := value_or_empty users_value).
  pose proof (sorted_perm Iam.row_key (map (Iam.user_row lk) users)) as Hp.
  assert (Hids : forall l, map Iam.Row.id (map (Iam.user_row lk) l)
                           = map Iam.GraphUser.id l)
    by (intros l; rewrite map_map; reflexivity).
  split; [|split; [|split]].
  - rewrite (Permutation_length Hp), length_map. reflexivity.
  - rewrite <- Hids. apply Permutation_map. exact Hp.
  - pose proof (sorted_is_sorted Iam.row_key (map (Iam.user_row lk) users)) as Hs.
    revert Hs. generalize (Iam.sorted Iam.row_key (map (Iam.user_row lk) users)).
    intros l Hs. induction Hs as [|a l' Hl' IH Hhd]; constructor; [exact IH|].
    destruct Hhd as [|b l'' Hab]; constructor.
    rewrite !row_key_is_display_name in Hab. exact Hab.
  - intros name.
    assert (Hf : forall l,
               filter (fun r => String.eqb (Iam.Row.displayName r) name) l
               = filter (fun r => String.eqb (Iam.row_key r) name) l).
    { intros l. apply filter_ext. intros r. rewrite row_key_is_display_name.
      reflexivity. }
    rewrite Hf, sorted_stable, <- Hf.
    clear. induction users as [|u rest IH]; [reflexivity|].
    cbn [map filter Iam.user_row Iam.Row.displayName].
    destruct (String.eqb (or_else (Iam.GraphUser.display_name u) "") name);
      cbn [map Iam.Row.id Iam.user_row]; rewrite IH; reflexivity.
Qed.

Lemma directory_roles_of_a_row_witness :
  Iam.Row.directoryRoles
    (Iam.Row.mk "u1" "Alice" "alice@contoso.com" (Some "QWxpY2U=")
                [Some "Global Administrator"; Some "User Administrator"])
  = Iam.memberships IamSample.client IamSample.roles "u1".
Proof.
  refine (directory_roles_of_a_row IamSample.client IamSample.rows
            (Some IamSample.users) (Some IamSample.roles)
            (Iam.Row.mk "u1" "Alice" "alice@contoso.com" (Some "QWxpY2U=")
                        [Some "Global Administrator"; Some "User Administrator"])
            eq_refl eq_refl eq_refl _).
  vm_compute. right. left. reflexivity.
Defined.

Lemma rows_are_sorted_by_display_name_witness :
  map Iam.Row.id IamSample.rows = ["u4"; "u1"; "u2"; "u3"] /\
  length IamSample.rows = 4.
Proof.
  split; [reflexivity|].
  exact (proj1 (rows_are_sorted_by_display_name IamSample.client IamSample.rows
                  (Some IamSample.users) (Some IamSample.roles)
                  eq_refl eq_refl eq_refl)).
Defined.

(** X18.  [get_users_and_roles] has no handler around its requests:
    when the members request of a role raises, the call ends with that
    exception and returns no rows, also for the roles already read. *)
Theorem members_error_propagates
    (c : Iam.Client) (users_value : option (list Iam.GraphUser.t))
    (roles_value : option (list Iam.DirectoryRole.t))
    (pre post : list Iam.DirectoryRole.t) (role : Iam.DirectoryRole.t) (e : PyExc) :
  Iam.users_get c = Ok users_value ->
  Iam.directory_roles_get c = Ok roles_value ->
  value_or_empty roles_value = (pre ++ role :: post)%list ->
  Forall (fun r => exists members_value,
                     Iam.members_get c (Iam.DirectoryRole.id r) = Ok members_value) pre ->
  Iam.members_get c (Iam.DirectoryRole.id role) = Err e ->
  Iam.get_users_and_roles c = Err e.
Proof.
  intros Hu Hr Hl Hpre He. unfold Iam.get_users_and_roles. rewrite Hu, Hr, Hl.
  assert (H : forall d, Iam.roles_loop c (pre ++ role :: post) d = Err e).
  { clear Hl. induction Hpre as [|r pre' Hhead Hpre' IH]; intros d;
      cbn [app Iam.roles_loop].
    - rewrite He. reflexivity.
    - destruct Hhead as [mv Hmv]. rewrite Hmv. apply IH. }
  rewrite H. reflexivity.
Qed.

Lemma members_error_propagates_witness :
  Iam.get_users_and_roles IamSample.client_failing_members
  = Err (ODataError "Authorization_RequestDenied").
Proof.
  refine (members_error_propagates IamSample.client_failing_members
            (Some IamSample.users) (Some IamSample.roles)
            [Iam.DirectoryRole.mk "r1" (Some "Global Administrator")] []
            (Iam.DirectoryRole.mk "r2" (Some "User Administrator")) _
            eq_refl eq_refl eq_refl _ eq_refl).
  constructor; [eexists; reflexivity | constructor].
Defined.

(** ** [generate_report] *)

Lemma has_roles_true (u : Iam.Row.t) :
  Iam.has_roles u = true <-> Iam.Row.directoryRoles u <> [].
Proof.
  unfold Iam.has_roles. destruct (Iam.Row.directoryRoles u); split;
    try discriminate; try reflexivity. intros H. contradiction.
Qed.

(** X19.  In the report made from the rows of [get_users_and_roles],
    the total of users is the number of users the directory listed, the
    privileged users are the rows with at least one role, in row order,
    that is the rows of the users some role lists as a member of user
    type, and their count is the privileged total, never above the
    total of users. *)
Theorem report_counts_follow_the_rows
    (c : Iam.Client) (rows : list Iam.Row.t)
    (users_value : option (list Iam.GraphUser.t))
    (roles_value : option (list Iam.DirectoryRole.t))
    (stamp isoformat : string) (abspath : string -> string)
    (ca_policies : list Iam.PyObj) :
  Iam.users_get c = Ok users_value ->
  Iam.directory_roles_get c = Ok roles_value ->
  Iam.get_users_and_roles c = Ok rows ->
  let report := snd (fst (Iam.generate_report stamp isoformat abspath ca_policies rows)) in
  Iam.totalUsers report = length (value_or_empty users_value) /\
  Iam.totalConditionalAccessPolicies report = length ca_policies /\
  Iam.usersWithDirectoryRoles report = rows /\
  Iam.totalPrivilegedUsers report = length (Iam.privilegedUsersOnly report) /\
  Iam.totalPrivilegedUsers report <= Iam.totalUsers report /\
  (forall row,
      In row (Iam.privilegedUsersOnly report) <->
      In row rows /\
      Iam.memberships c (value_or_empty roles_value) (Iam.Row.id row) <> []).
Proof.
  intros Hu Hr Hrows. cbv zeta.
  cbn [Iam.generate_report fst snd Iam.totalUsers Iam.totalConditionalAccessPolicies
       Iam.usersWithDirectoryRoles Iam.totalPrivilegedUsers Iam.privilegedUsersOnly].
  destruct (get_users_and_roles_rows c rows _ _ Hu Hr Hrows) as (lk & Hl & E).
  split; [|split; [|split; [|split; [|split]]]]; try reflexivity.
  - rewrite E, (Permutation_length (sorted_perm _ _)), length_map. reflexivity.
  - apply filter_length_le.
  - intros row. rewrite filter_In, has_roles_true. split.
    + intros [Hin Hne]. split; [exact Hin|].
      rewrite <- (directory_roles_of_a_row_helper c rows _ _ row Hu Hr Hrows Hin).
      exact Hne.
    + intros [Hin Hne]. split; [exact Hin|].
      rewrite (directory_roles_of_a_row_helper c rows _ _ row Hu Hr Hrows Hin).
      exact Hne.
Qed.

Lemma report_counts_follow_the_rows_witness :
  let report := snd (fst (Iam.generate_report "20250115_103000Z"
                            "2025-01-15T10:30:00.000000"
                            (fun f => "/work/" ++ f) [] IamSample.rows)) in
  Iam.totalUsers report = 4 /\ Iam.totalPrivilegedUsers report <= Iam.totalUsers report.
Proof.
  destruct (report_counts_follow_the_rows IamSample.client IamSample.rows
              (Some IamSample.users) (Some IamSample.roles)
              "20250115_103000Z" "2025-01-15T10:30:00.000000"
              (fun f => "/work/" ++ f) [] eq_refl eq_refl eq_refl)
    as (Ht & _ & _ & _ & Hle & _).
  split; [exact Ht | exact Hle].
Defined.

(** ** [get_conditional_access_policies] *)

Lemma policies_loop_pages (c : Iam.Client) (resp : option Iam.Page.t)
    (rest : list Iam.PyObj) :
  Iam.Pages c resp rest ->
  exists n, forall fuel policies,
      n <= fuel ->
      Iam.policies_loop fuel c resp policies = Some (Ok (policies ++ rest)%list).
Proof.
  induction 1 as [|page Hlast|page link next rest Hlink Hne Hurl Hrest [n IH]].
  - exists 1. intros [|fuel] policies Hle; [lia|].
    cbn [Iam.policies_loop]. rewrite app_nil_r. reflexivity.
  - exists 1. intros [|fuel] policies Hle; [lia|].
    cbn [Iam.policies_loop].
    destruct (Iam.Page.odata_next_link page) as [[|a l]|];
      try reflexivity. discriminate.
  - exists (S n). intros [|fuel] policies Hle; [lia|].
    cbn [Iam.policies_loop]. rewrite Hlink.
    destruct link as [|a l]; [contradiction|].
    rewrite Hurl, (IH fuel _ ltac:(lia)), <- app_assoc. reflexivity.
Qed.

(** X20.  When the next links lead from the first response to a page
    without next link (or to no response) and no request raises,
    [get_conditional_access_policies] returns, and what it returns is
    the policies of all these pages, in page order, each converted by
    [model_to_dict]; an empty next link ends the loop like a missing
    one. *)
Theorem all_pages_are_collected
    (c : Iam.Client) (first : option Iam.Page.t) (policies : list Iam.PyObj) :
  Iam.policies_get c = Ok first ->
  Iam.Pages c first policies ->
  exists n, forall fuel,
      n <= fuel ->
      Iam.get_conditional_access_policies fuel c
      = Some (Ok (map Iam.model_to_dict policies)).
Proof.
  intros Hget Hpages.
  destruct (policies_loop_pages c first policies Hpages) as [n Hn].
  exists n. intros fuel Hle. unfold Iam.get_conditional_access_policies.
  rewrite Hget, (Hn fuel [] Hle). reflexivity.
Qed.

Lemma all_pages_are_collected_witness :
  exists n, forall fuel,
      n <= fuel ->
      Iam.get_conditional_access_policies fuel IamSample.client
      = Some (Ok (map Iam.model_to_dict
                      [ IamSample.policy "Require MFA";
                        IamSample.policy "Require compliant device";
                        IamSample.policy "Block legacy auth" ])).
Proof.
  apply (all_pages_are_collected IamSample.client (Some IamSample.first_page)).
  - reflexivity.
  - apply (Iam.pages_next IamSample.client IamSample.first_page
             "https://graph.microsoft.com/v1.0/policies?$skiptoken=2"
             (Some IamSample.second_page) [IamSample.policy "Block legacy auth"]).
    + reflexivity.
    + discriminate.
    + reflexivity.
    + apply (Iam.pages_last IamSample.client IamSample.second_page). reflexivity.
Defined.

(** X21.  When the next link of the first page leads back to that
    page, the loop never ends: whatever the number of loop tests
    allowed, the call has not returned. *)
Theorem self_linked_page_never_ends
    (c : Iam.Client) (page : Iam.Page.t) (link : string) (fuel : nat) :
  Iam.policies_get c = Ok (Some page) ->
  Iam.Page.odata_next_link page = Some link ->
  link <> "" ->
  Iam.policies_with_url c link = Ok (Some page) ->
  Iam.get_conditional_access_policies fuel c = None.
Proof.
  intros Hget Hlink Hne Hurl.
  assert (H : forall policies, Iam.policies_loop fuel c (Some page) policies = None).
  { induction fuel as [|fuel IH]; intros policies; cbn [Iam.policies_loop];
      [reflexivity|].
    rewrite Hlink. destruct link as [|a l]; [contradiction|].
    rewrite Hurl. apply IH. }
  unfold Iam.get_conditional_access_policies. rewrite Hget, H. reflexivity.
Qed.

Lemma self_linked_page_never_ends_witness :
  Iam.get_conditional_access_policies 1000 IamSample.client_looping = None.
Proof.
  refine (self_linked_page_never_ends IamSample.client_looping IamSample.looping_page
            "https://graph.microsoft.com/again" 1000 eq_refl eq_refl _ eq_refl).
  discriminate.
Defined.
